(** * markuplint: attribute type dispatcher and two rules

    A shallow embedding of

    - [packages/@markuplint/rules/src/attr-check.ts] ([attrCheck],
      [valueCheck], [includesEnum]),
    - the [class-naming] rule's [verify],
    - the [no-empty-palpable-content] rule's [verify],

    together with the JavaScript built-ins these functions call.

    Strings.  A JavaScript string is modelled by a Rocq [string] holding its
    UTF-8 encoding.  Every character the source inspects literally is ASCII, so
    tests such as [value === ''] or [value[0] === '#'] read the same on bytes;
    characters outside ASCII matter only for the regular-expression classes
    [.] and [\s], which are written out on their UTF-8 encodings below. *)

From Stdlib Require Import String Ascii List Bool ZArith QArith Lia DecimalString.
Import ListNotations.

Local Open Scope string_scope.
Local Open Scope Z_scope.

(* ================================================================== *)
(** ** JavaScript built-ins used by the sources *)
(* ================================================================== *)

Module JS.

(** Abrupt or normal completion of a JavaScript computation. *)
Inductive Completion (A : Type) : Type :=
| Normal (a : A)
| Throw (error : string).
Arguments Normal {A} a.
Arguments Throw {A} error.

Definition bind {A B} (c : Completion A) (k : A -> Completion B) : Completion B :=
  match c with
  | Normal a => k a
  | Throw e => Throw e
  end.

Definition code (c : ascii) : N := N_of_ascii c.

(** [n] bytes taken by a line terminator at the head of [s], 0 when there
    is none: LF, CR, U+2028 and U+2029 (E2 80 A8 / E2 80 A9 in UTF-8). *)
Definition line_terminator_len (s : string) : nat :=
  match s with
  | String c r =>
      if (code c =? 10)%N || (code c =? 13)%N then 1%nat
      else match r with
           | String c1 (String c2 _) =>
               if (code c =? 226)%N && (code c1 =? 128)%N
                  && ((code c2 =? 168)%N || (code c2 =? 169)%N)
               then 3%nat else 0%nat
           | _ => 0%nat
           end
  | EmptyString => 0%nat
  end.

Fixpoint has_line_terminator (s : string) : bool :=
  match s with
  | EmptyString => false
  | String _ r =>
      negb (Nat.eqb (line_terminator_len s) 0) || has_line_terminator r
  end.

(** The regular expression [/^.+$/] (no flags) on a whole string: at least
    one character, none of them a line terminator. *)
Definition dot_plus (s : string) : bool :=
  match s with
  | EmptyString => false
  | String _ _ => negb (has_line_terminator s)
  end.

(** [strip_prefix p s] is the rest of [s] after the literal prefix [p]. *)
Fixpoint strip_prefix (p s : string) : option string :=
  match p with
  | EmptyString => Some s
  | String a p' =>
      match s with
      | String b s' => if Ascii.eqb a b then strip_prefix p' s' else None
      | EmptyString => None
      end
  end.

(** [/^<lit>.+$/.test(s)] for a literal [lit]. *)
Definition test_literal_then_any (lit s : string) : bool :=
  match strip_prefix lit s with
  | Some rest => dot_plus rest
  | None => false
  end.

(** [String.prototype.toLowerCase] on the ASCII letters; bytes of
    characters outside ASCII are kept as they are. *)
Definition lower_ascii (c : ascii) : ascii :=
  if (65 <=? code c)%N && (code c <=? 90)%N
  then ascii_of_N (code c + 32) else c.

Fixpoint toLowerCase (s : string) : string :=
  match s with
  | EmptyString => EmptyString
  | String c r => String (lower_ascii c) (toLowerCase r)
  end.

(** [Array.prototype.includes] on an array of strings. *)
Definition includes (l : list string) (s : string) : bool :=
  existsb (String.eqb s) l.

(** Bytes taken by a white space character ([\s], which is also what
    [parseInt] and [trim] strip) at the head of [s], 0 when there is none:
    TAB LF VT FF CR SP, U+00A0, U+1680, U+2000..U+200A, U+2028, U+2029,
    U+202F, U+205F, U+3000, U+FEFF. *)
Definition white_space_len (s : string) : nat :=
  match s with
  | EmptyString => 0%nat
  | String c r =>
      let b := code c in
      if ((9 <=? b)%N && (b <=? 13)%N) || (b =? 32)%N then 1%nat
      else match r with
           | String c1 r1 =>
               let b1 := code c1 in
               if (b =? 194)%N && (b1 =? 160)%N then 2%nat
               else match r1 with
                    | String c2 _ =>
                        let b2 := code c2 in
                        if (b =? 225)%N && (b1 =? 154)%N && (b2 =? 128)%N then 3%nat
                        else if (b =? 226)%N && (b1 =? 128)%N
                                && (((128 <=? b2)%N && (b2 <=? 138)%N)
                                    || (b2 =? 168)%N || (b2 =? 169)%N || (b2 =? 175)%N)
                             then 3%nat
                        else if (b =? 226)%N && (b1 =? 129)%N && (b2 =? 159)%N then 3%nat
                        else if (b =? 227)%N && (b1 =? 128)%N && (b2 =? 128)%N then 3%nat
                        else if (b =? 239)%N && (b1 =? 187)%N && (b2 =? 191)%N then 3%nat
                        else 0%nat
                    | EmptyString => 0%nat
                    end
           | EmptyString => 0%nat
           end
  end.

Fixpoint drop (n : nat) (s : string) : string :=
  match n, s with
  | S n', String _ r => drop n' r
  | _, _ => s
  end.

(** Leading white space removed; [fuel] bounds the number of characters
    looked at and [String.length s] is always enough. *)
Fixpoint trim_start_fuel (fuel : nat) (s : string) : string :=
  match fuel with
  | O => s
  | S f =>
      match white_space_len s with
      | O => s
      | n => trim_start_fuel f (drop n s)
      end
  end.

Definition trimStart (s : string) : string :=
  trim_start_fuel (String.length s) s.

Definition is_digit (c : ascii) : bool :=
  (48 <=? code c)%N && (code c <=? 57)%N.

Definition digit_value (c : ascii) : Z := Z.of_N (code c) - 48.

(** Value of the longest prefix of decimal digits of [s], read left to
    right starting from the accumulator [acc]. *)
Fixpoint digits_prefix (s : string) (acc : Z) : Z :=
  match s with
  | String c r => if is_digit c then digits_prefix r (10 * acc + digit_value c) else acc
  | EmptyString => acc
  end.

Definition starts_with_digit (s : string) : bool :=
  match s with
  | String c _ => is_digit c
  | EmptyString => false
  end.

Definition hex_value (c : ascii) : option Z :=
  let b := code c in
  if is_digit c then Some (Z.of_N b - 48)
  else if (97 <=? b)%N && (b <=? 102)%N then Some (Z.of_N b - 87)
  else if (65 <=? b)%N && (b <=? 70)%N then Some (Z.of_N b - 55)
  else None.

(** Longest prefix of hexadecimal digits: its value and whether it is
    non-empty. *)
Fixpoint hex_prefix (s : string) (acc : Z) (seen : bool) : Z * bool :=
  match s with
  | String c r =>
      match hex_value c with
      | Some v => hex_prefix r (16 * acc + v) true
      | None => (acc, seen)
      end
  | EmptyString => (acc, seen)
  end.

(** An optional sign at the head of [s]: its factor and what follows. *)
Definition read_sign (s : string) : Z * string :=
  match s with
  | String c r =>
      if Ascii.eqb c "-" then (-1, r)
      else if Ascii.eqb c "+" then (1, r)
      else (1, s)
  | EmptyString => (1, s)
  end.

(** [parseInt(s)] with no radix: leading white space is skipped, a sign is
    read, a [0x]/[0X] prefix selects base 16, and the longest prefix of
    digits is converted.  [None] stands for [NaN].  The result is kept as an
    exact integer: the source only compares it with [-1], and rounding to a
    double is monotone and exact on [-1]. *)
Definition parseInt (s : string) : option Z :=
  let (sign, s2) := read_sign (trimStart s) in
  let decimal :=
    if starts_with_digit s2 then Some (sign * digits_prefix s2 0) else None in
  match s2 with
  | String z (String x r) =>
      if Ascii.eqb z "0" && (Ascii.eqb x "x" || Ascii.eqb x "X") then
        match hex_prefix r 0 false with
        | (v, true) => Some (sign * v)
        | (_, false) => None
        end
      else decimal
  | _ => decimal
  end.

(** A relational operator with a [NaN] operand is false. *)
Definition num_le (a : Z) (b : option Z) : bool :=
  match b with Some v => a <=? v | None => false end.

Definition num_gt (a : Z) (b : option Z) : bool :=
  match b with Some v => v <? a | None => false end.

End JS.

(* ================================================================== *)
(** ** Primitive value checkers ([./primitive-check])

    [attr-check.ts] imports these seven functions; their module is described
    in section 4.1 of the specification, which the definitions follow.
    Numbers are exact rationals. *)
(* ================================================================== *)

Module PrimitiveCheck.
Import JS.

(** The longest prefix of decimal digits and what follows it. *)
Fixpoint span_digits (s : string) : string * string :=
  match s with
  | String c r =>
      if is_digit c then let (d, rest) := span_digits r in (String c d, rest)
      else (EmptyString, s)
  | EmptyString => (EmptyString, EmptyString)
  end.

Definition is_empty (s : string) : bool :=
  match s with EmptyString => true | String _ _ => false end.

(** Modelled from the spec: what it is for [s] to parse "as an
    optionally-signed base-10 integer with no extraneous characters", and
    the integer it then denotes. *)
Definition parse_integer (s : string) : option Z :=
  let (sign, body) := read_sign s in
  let (d, rest) := span_digits body in
  if is_empty d || negb (is_empty rest) then None
  else Some (sign * digits_prefix d 0).

(** Modelled from the spec: [intCheck(s)] is "true iff [s] parses as an
    optionally-signed base-10 integer with no extraneous characters". *)
Definition intCheck (s : string) : bool :=
  match parse_integer s with Some _ => true | None => false end.

(** Modelled from the spec: [uintCheck(s)] is "true iff integer and >= 0". *)
Definition uintCheck (s : string) : bool :=
  match parse_integer s with Some z => 0 <=? z | None => false end.

(** Modelled from the spec: [nonZeroUintCheck(s)] is "true iff integer and
    > 0". *)
Definition nonZeroUintCheck (s : string) : bool :=
  match parse_integer s with Some z => 0 <? z | None => false end.

(** The fractional part of a literal: [("", s)] when [s] has none, [None]
    when a point is not followed by a digit. *)
Definition read_fraction (s : string) : option (string * string) :=
  match s with
  | String c r =>
      if Ascii.eqb c "." then
        let (f, rest) := span_digits r in
        if is_empty f then None else Some (f, rest)
      else Some (EmptyString, s)
  | EmptyString => Some (EmptyString, s)
  end.

(** The exponent of a literal, which must end the string. *)
Definition read_exponent (s : string) : option Z :=
  match s with
  | EmptyString => Some 0
  | String c r =>
      if Ascii.eqb c "e" || Ascii.eqb c "E" then parse_integer r else None
  end.

(** Modelled from the spec: the number "a base-10 floating point literal
    (optional sign, optional fractional part, optional exponent)" denotes;
    the checkers are total and "unparseable input yields false", here
    [None]. *)
Definition parse_number (s : string) : option Q :=
  let (sign, body) := read_sign s in
  let (i, r1) := span_digits body in
  if is_empty i then None
  else
    match read_fraction r1 with
    | None => None
    | Some (f, r2) =>
        match read_exponent r2 with
        | None => None
        | Some e =>
            Some ((inject_Z sign
                   * (inject_Z (digits_prefix i 0)
                      + inject_Z (digits_prefix f 0)
                        / inject_Z (10 ^ Z.of_nat (String.length f))))
                  * Qpower (inject_Z 10) e)%Q
        end
    end.

(** Modelled from the spec: [floatCheck(s)] is "true iff parses as a
    base-10 floating point literal (optional sign, optional fractional part,
    optional exponent)". *)
Definition floatCheck (s : string) : bool :=
  match parse_number s with Some _ => true | None => false end.

(** Modelled from the spec: [range(value, min, max)] is "true iff numeric
    value (string or number) lies in [[min, max]] inclusive"; "unparseable
    input yields false". *)
Definition range (value : string) (min max : Q) : bool :=
  match parse_number value with
  | Some q => Qle_bool min q && Qle_bool q max
  | None => false
  end.

(** The characters a number is written with, the exponent mark apart. *)
Definition is_numeric_char (c : ascii) : bool :=
  is_digit c || Ascii.eqb c "." || Ascii.eqb c "+" || Ascii.eqb c "-".

(** Modelled from the spec: [splitUnit(s)] "decomposes a string into
    [{ num, unit }] where [unit] is the longest trailing non-numeric
    suffix". *)
Fixpoint splitUnit (s : string) : string * string :=
  match s with
  | EmptyString => (EmptyString, EmptyString)
  | String c r =>
      let (num, unit) := splitUnit r in
      if is_empty num && negb (is_numeric_char c)
      then (EmptyString, String c unit)
      else (String c num, unit)
  end.

(** Modelled from the spec: [numberCheckWithUnit(s, allowedUnits)] is "true
    iff [s] decomposes into a valid float/int and the unit is a member of
    [allowedUnits]". *)
Definition numberCheckWithUnit (s : string) (allowedUnits : list string) : bool :=
  let (num, unit) := splitUnit s in
  floatCheck num && includes allowedUnits unit.

End PrimitiveCheck.

(* ================================================================== *)
(** ** The translator interface ([@markuplint/i18n]) *)
(* ================================================================== *)

Module I18n.

(** An argument of the translator: a string (possibly itself a translated
    phrase) or a number. *)
Inductive Arg : Type :=
| Str (s : string)
| Num (n : Z).

(** [Translator]: [t(template, ...args)] and the list form
    [t([a, b, c])]. *)
Class Translator : Type := {
  t : string -> list Arg -> string;
  t_list : list string -> string
}.

(** The one-character string holding a double quote. *)
Definition dq : string := String (ascii_of_N 34) EmptyString.

End I18n.

(* ================================================================== *)
(** ** [attr-check.ts] *)
(* ================================================================== *)

Module AttrCheck.
Import JS I18n.
Local Open Scope string_scope.

Notation "x <- c ;; k" := (bind c (fun x => k))
  (at level 61, c at next level, right associativity).

(** The functions imported from [./primitive-check]. *)
Class PrimitiveChecks : Type := {
  floatCheck : string -> bool;
  intCheck : string -> bool;
  nonZeroUintCheck : string -> bool;
  numberCheckWithUnit : string -> list string -> bool;
  range : string -> Q -> Q -> bool;
  splitUnit : string -> string * string;
  uintCheck : string -> bool
}.

(** [Attribute['type']] of [@markuplint/ml-spec]: a type name, or an object
    whose members (such as [enum]) hold arrays of strings. *)
Inductive AttributeType : Type :=
| TypeName (tag : string)
| TypeObject (members : list (string * list string)).

(** [Attribute] of [@markuplint/ml-spec]; [attr-check.ts] reads [type]
    only. *)
Record AttrSpec : Type := { type : AttributeType }.

Inductive InvalidType : Type := NonExistent | InvalidValue.

Record Invalid : Type := {
  invalidType : InvalidType;
  message : string
}.

(** [typeof x !== 'string'] *)
Definition not_a_string (x : AttributeType) : bool :=
  match x with TypeName _ => false | TypeObject _ => true end.

(** [key in x]: a [TypeError] unless [x] is an object. *)
Definition js_in (key : string) (x : AttributeType) : Completion bool :=
  match x with
  | TypeName _ =>
      Throw "TypeError: Cannot use 'in' operator to search for a key in a string"
  | TypeObject members => Normal (existsb (fun m => fst m =? key) members)
  end.

(** [x.enum], [undefined] ([None]) when there is no such member. *)
Definition get_enum (x : AttributeType) : option (list string) :=
  match x with
  | TypeName _ => None
  | TypeObject members =>
      option_map snd (find (fun m => fst m =? "enum") members)
  end.

(** [spec.type === tag] *)
Definition is_type (spec : AttrSpec) (tag : string) : bool :=
  match type spec with
  | TypeName n => n =? tag
  | TypeObject _ => false
  end.

(** A string is falsy exactly when it is empty. *)
Definition truthy (s : string) : bool :=
  match s with EmptyString => false | String _ _ => true end.

(** The template ['the "{0}" {1}']. *)
Definition the_quoted_template : string :=
  String.append "the " (String.append dq (String.append "{0}" (String.append dq " {1}"))).

(** The types [valueCheck] accepts without looking at the value. *)
Definition unchecked_types : list string :=
  ["Boolean"; "Function"; "Date"; "AcceptList"; "AutoComplete"; "BCP47";
   "Color"; "Coords"; "Crossorigin"; "DateTime"; "Destination"; "DOMID";
   "DOMIDList"; "IRI"; "ItemType"; "LinkSizes"; "LinkType"; "LinkTypeList";
   "MediaQuery"; "MediaQueryList"; "MIMEType"; "SourceSizeList"; "SrcSet";
   "Target"; "URL"; "URLList"; "CSSClipPath"; "CSSCustomIdent";
   "CSSDisplay"; "CSSFilter"; "CSSFontFamily"; "CSSFontSize";
   "CSSFontVariant"; "CSSFontWeight"; "CSSMask"; "CSSTextDecoration";
   "CSSTransformList"; "CSSTransformOrigin"; "CSSURL"; "SVGAnimatableValue";
   "SVGBeginValueList"; "SVGClockValue"; "SVGColorMatrix"; "SVGDashArray";
   "SVGEndValueList"; "SVGFilterPrimitiveReference"; "SVGKernelMatrix";
   "SVGKeyPoints"; "SVGKeySplines"; "SVGKeyTimes"; "SVGLanguageTags";
   "SVGLength"; "SVGLengthList"; "SVGNumberList"; "SVGNumberOptionalNumber";
   "SVGOrigin"; "SVGPaint"; "SVGPathCommands"; "SVGPercentage";
   "SVGPercentageList"; "SVGPoints"; "SVGPreserveAspectRatio"; "SVGViewBox"].

(** The types for which [valueCheck] has a check of the value. *)
Definition checked_types : list string :=
  ["NonEmptyString"; "Int"; "Uint"; "Float"; "NonZeroUint"; "ZeroToOne";
   "ColSpan"; "ReferrerPolicy"; "RowSpan"; "TabIndex"; "URLHash";
   "CSSAngle"; "CSSBlendMode"; "CSSOpacity"].

(** [/^data-.+$/.test(name)] *)
Definition is_data_attribute (name : string) : bool :=
  test_literal_then_any "data-" name.

(** [/^aria-.+$|^role$/.test(name)] *)
Definition is_aria_or_role (name : string) : bool :=
  test_literal_then_any "aria-" name || (name =? "role").

Section Dispatcher.
Context {translator : Translator} {primitives : PrimitiveChecks}.

Definition includesEnum (name value : string) (enumValues : option (list string))
  : Completion (option string) :=
  match enumValues with
  | None => Throw "TypeError: Cannot read properties of undefined (reading 'includes')"
  | Some enumValues =>
      let valid := includes enumValues (toLowerCase value) in
      if valid then Normal None
      else Normal (Some (t "{0} expects {1:c}"
                           [Str (t the_quoted_template [Str name; Str "attribute"]);
                            Str (t "either {0}" [Str (t_list enumValues)])]))
  end.

Definition valueCheck (name value : string) (spec : AttrSpec)
  : Completion (option string) :=
  has_enum <- (if not_a_string (type spec) then js_in "enum" (type spec)
               else Normal false) ;;
  if has_enum then includesEnum name value (get_enum (type spec))
  else
  let t_theNameAttribute := t the_quoted_template [Str name; Str "attribute"] in
  if is_type spec "NonEmptyString" && (value =? "") then
    Normal (Some (t "{0} must not be {1}"
                    [Str (t "{0} of {1}" [Str (t "the {0}" [Str "value"]); Str t_theNameAttribute]);
                     Str "empty string"]))
  else
  if is_type spec "Boolean" then Normal None else
  if is_type spec "Function" then Normal None else
  if is_type spec "Date" then Normal None else
  if is_type spec "Int" then Normal (
    if intCheck value then None
    else Some (t "{0} expects {1}" [Str t_theNameAttribute; Str "integer"]))
  else
  if is_type spec "Uint" then Normal (
    if uintCheck value then None
    else Some (t "{0} expects {1}" [Str t_theNameAttribute; Str "non-negative integer"]))
  else
  if is_type spec "Float" then Normal (
    if floatCheck value then None
    else Some (t "{0} expects {1}" [Str t_theNameAttribute; Str "floating-point number"]))
  else
  if is_type spec "NonZeroUint" then Normal (
    if nonZeroUintCheck value then None
    else Some (t "{0} expects {1}"
                 [Str t_theNameAttribute;
                  Str (t "{0} greater than {1}" [Str "floating-point number"; Str "zero"])]))
  else
  if is_type spec "ZeroToOne" then Normal (
    if range value 0 1 then None
    else Some (t "{0} expects {1:c}"
                 [Str t_theNameAttribute;
                  Str (t "in the range between {0} and {1}" [Str "zero"; Str "one"])]))
  else
  if is_type spec "AcceptList" then Normal None else
  if is_type spec "AutoComplete" then Normal None else
  if is_type spec "BCP47" then Normal None else
  if is_type spec "Color" then Normal None else
  if is_type spec "ColSpan" then Normal (
    if intCheck value && range value 0 1000 then None
    else Some (t "{0} expects {1:c}"
                 [Str t_theNameAttribute;
                  Str (t "{0:c} and {1:c}"
                         [Str (t "{0} greater than {1}" [Str "non-negative integer"; Str "zero"]);
                          Str (t "less than or equal to {0}" [Num 1000])])]))
  else
  if is_type spec "Coords" then Normal None else
  if is_type spec "Crossorigin" then Normal None else
  if is_type spec "DateTime" then Normal None else
  if is_type spec "Destination" then Normal None else
  if is_type spec "DOMID" then Normal None else
  if is_type spec "DOMIDList" then Normal None else
  if is_type spec "IRI" then Normal None else
  if is_type spec "ItemType" then Normal None else
  if is_type spec "LinkSizes" then Normal None else
  if is_type spec "LinkType" then Normal None else
  if is_type spec "LinkTypeList" then Normal None else
  if is_type spec "MediaQuery" then Normal None else
  if is_type spec "MediaQueryList" then Normal None else
  if is_type spec "MIMEType" then Normal None else
  if is_type spec "ReferrerPolicy" then
    includesEnum name value
      (Some [""; "no-referrer"; "no-referrer-when-downgrade"; "same-origin";
             "origin"; "strict-origin"; "origin-when-cross-origin";
             "strict-origin-when-cross-origin"; "unsafe-url"])
  else
  if is_type spec "RowSpan" then Normal (
    if intCheck value && range value 0 65534 then None
    else Some (t "{0} expects {1:c}"
                 [Str t_theNameAttribute;
                  Str (t "{0:c} and {1:c}"
                         [Str (t "{0} greater than {1}" [Str "non-negative integer"; Str "zero"]);
                          Str (t "less than or equal to {0}" [Num 65534])])]))
  else
  if is_type spec "SourceSizeList" then Normal None else
  if is_type spec "SrcSet" then Normal None else
  if is_type spec "TabIndex" then Normal (
    let expects :=
      Some (t "{0} expects {1:c}"
              [Str t_theNameAttribute;
               Str (t "either {0}" [Str (t_list ["-1"; "zero"; "non-negative integer"])])]) in
    if intCheck value then
      let i := parseInt value in
      if num_le (-1) i then None
      else if num_gt (-1) i then
        Some (t "{0} behaves the same as {1} if {2}"
                [Str t_theNameAttribute; Str "-1"; Str (t "less than {0}" [Str "-1"])])
      else expects
    else expects)
  else
  if is_type spec "Target" then Normal None else
  if is_type spec "URL" then Normal None else
  if is_type spec "URLHash" then Normal (
    let valid := match value with String "#" _ => true | _ => false end in
    if valid then None
    else Some (t "{0} expects {1:c}"
                 [Str t_theNameAttribute; Str (t "valid {0}" [Str "hash-name reference"])]))
  else
  if is_type spec "URLList" then Normal None else
  if is_type spec "CSSAngle" then Normal (
    let valid := numberCheckWithUnit value ["deg"; "grad"; "rad"; "turn"] in
    if valid then None
    else Some (t "{0} expects {1}" [Str t_theNameAttribute; Str "angle"]))
  else
  if is_type spec "CSSBlendMode" then
    includesEnum name value
      (Some ["normal"; "multiply"; "screen"; "overlay"; "darken"; "lighten";
             "color-dodge"; "color-burn"; "hard-light"; "soft-light";
             "difference"; "exclusion"; "hue"; "saturation"; "color";
             "luminosity"])
  else
  if is_type spec "CSSClipPath" then Normal None else
  if is_type spec "CSSCustomIdent" then Normal None else
  if is_type spec "CSSDisplay" then Normal None else
  if is_type spec "CSSFilter" then Normal None else
  if is_type spec "CSSFontFamily" then Normal None else
  if is_type spec "CSSFontSize" then Normal None else
  if is_type spec "CSSFontVariant" then Normal None else
  if is_type spec "CSSFontWeight" then Normal None else
  if is_type spec "CSSMask" then Normal None else
  if is_type spec "CSSOpacity" then Normal (
    let (num, unit) := splitUnit value in
    if unit =? "%" then
      let vaild := range num 0 100 in
      if vaild then None
      else Some (t "{0} expects {1:c}"
                   [Str t_theNameAttribute;
                    Str (t "{0} as {1}"
                           [Str (t "{0} to {1}" [Str "0%"; Str "100%"]);
                            Str "alpha channel value"])])
    else
      let vaild := range num 0 1 in
      if vaild then None
      else Some (t "{0} expects {1:c}"
                   [Str t_theNameAttribute;
                    Str (t "{0} as {1}"
                           [Str (t "{0} to {1}" [Str "0"; Str "1"]);
                            Str "alpha channel value"])]))
  else
  if is_type spec "CSSTextDecoration" then Normal None else
  if is_type spec "CSSTransformList" then Normal None else
  if is_type spec "CSSTransformOrigin" then Normal None else
  if is_type spec "CSSURL" then Normal None else
  if is_type spec "SVGAnimatableValue" then Normal None else
  if is_type spec "SVGBeginValueList" then Normal None else
  if is_type spec "SVGClockValue" then Normal None else
  if is_type spec "SVGColorMatrix" then Normal None else
  if is_type spec "SVGDashArray" then Normal None else
  if is_type spec "SVGEndValueList" then Normal None else
  if is_type spec "SVGFilterPrimitiveReference" then Normal None else
  if is_type spec "SVGKernelMatrix" then Normal None else
  if is_type spec "SVGKeyPoints" then Normal None else
  if is_type spec "SVGKeySplines" then Normal None else
  if is_type spec "SVGKeyTimes" then Normal None else
  if is_type spec "SVGLanguageTags" then Normal None else
  if is_type spec "SVGLength" then Normal None else
  if is_type spec "SVGLengthList" then Normal None else
  if is_type spec "SVGNumberList" then Normal None else
  if is_type spec "SVGNumberOptionalNumber" then Normal None else
  if is_type spec "SVGOrigin" then Normal None else
  if is_type spec "SVGPaint" then Normal None else
  if is_type spec "SVGPathCommands" then Normal None else
  if is_type spec "SVGPercentage" then Normal None else
  if is_type spec "SVGPercentageList" then Normal None else
  if is_type spec "SVGPoints" then Normal None else
  if is_type spec "SVGPreserveAspectRatio" then Normal None else
  if is_type spec "SVGViewBox" then Normal None else
  Normal None.

Definition attrCheck (name value : string) (isCustomRule : bool)
           (spec : option AttrSpec) : Completion (option Invalid) :=
  let existence_and_value :=
    match spec with
    | None =>
        Normal (Some {| invalidType := NonExistent;
                        message := t "{0} is {1}"
                                     [Str (t the_quoted_template [Str name; Str "attribute"]);
                                      Str "disallow"] |})
    | Some spec =>
        invalid <- valueCheck name value spec ;;
        match invalid with
        | Some msg =>
            if truthy msg
            then Normal (Some {| invalidType := InvalidValue; message := msg |})
            else Normal None
        | None => Normal None
        end
    end in
  if negb isCustomRule then
    if is_data_attribute name then Normal None
    else if is_aria_or_role name then Normal None
    else existence_and_value
  else existence_and_value.

(** The name is not one the dispatcher lets through unchecked. *)
Definition not_exempted (name : string) (isCustomRule : bool) : Prop :=
  isCustomRule = true
  \/ (is_data_attribute name = false /\ is_aria_or_role name = false).

(** The translator gives a non-empty text for the complaint, if any,
    about this value. *)
Definition message_not_empty (name value : string) (spec : AttrSpec) : Prop :=
  forall msg, valueCheck name value spec = Normal (Some msg) -> truthy msg = true.

End Dispatcher.

End AttrCheck.

(* ================================================================== *)
(** ** The [class-naming] rule *)
(* ================================================================== *)

Module ClassNaming.
Import JS I18n.
Local Open Scope string_scope.

(** [Value = string | string[] | null] *)
Inductive Value : Type :=
| VNull
| VString (s : string)
| VArray (a : list string).

Record ValueNode : Type := {
  startLine : Z;
  startCol : Z;
  raw : string
}.

Record AttributeToken : Type := {
  isDynamicValue : bool;
  value : string;
  valueNode : option ValueNode
}.

(** What the rule reads of an element: [el.rule.value] and
    [el.getAttributeToken('class')]. *)
Record Element : Type := {
  rule_value : Value;
  class_tokens : list AttributeToken
}.

(** The argument of [report]. *)
Record Report : Type := {
  scope : AttributeToken;
  message : string;
  line : option Z;
  col : option Z;
  report_raw : option string
}.

(** [null] and the empty string are falsy, an array never is. *)
Definition truthy_value (v : Value) : bool :=
  match v with
  | VNull => false
  | VString s => negb (String.eqb s "")
  | VArray _ => true
  end.

Definition truthy (s : string) : bool := negb (String.eqb s "").

(** [s.split(/\s+/g)]: [skip] counts the bytes left of the white space
    character being passed over, [in_sep] tells whether the separator has
    begun, [cur] is the piece read so far. *)
Fixpoint split_go (s : string) (skip : nat) (in_sep : bool) (cur : string)
  : list string :=
  match s with
  | EmptyString => [cur]
  | String c r =>
      match skip with
      | S k => split_go r k in_sep cur
      | O =>
          match white_space_len s with
          | O => split_go r 0 false (String.append cur (String c EmptyString))
          | S k =>
              if in_sep then split_go r k true cur
              else cur :: split_go r k true EmptyString
          end
      end
  end.

Definition split_white_space (s : string) : list string :=
  split_go s 0 false EmptyString.

(** [trim] *)
Fixpoint trimEnd (s : string) : string :=
  match s with
  | EmptyString => EmptyString
  | String c r =>
      if String.eqb (trimStart s) "" then EmptyString else String c (trimEnd r)
  end.

Definition trim (s : string) : string := trimEnd (trimStart s).

(** [a.join(sep)] *)
Definition join (sep : string) (a : list string) : string :=
  String.concat sep a.

(** The template ['the "{0*}" {1}']. *)
Definition the_quoted_star_template : string :=
  String.append "the " (String.append dq (String.append "{0*}" (String.append dq " {1}"))).

Section Rule.
Context {translator : Translator}.
(** [toNoEmptyStringArrayFromStringOrArray] of [@markuplint/shared] and
    [match] of [../helpers]. *)
Variable toNoEmptyStringArrayFromStringOrArray : Value -> list string.
Variable match_ : string -> string -> bool.

(** The reports of one token of the [class] attribute: the body of the
    loop [for (const attr of attrs)]. *)
Definition verify_token (classPatterns : list string) (attr : AttributeToken)
  : list Report :=
  if isDynamicValue attr then []
  else
    let classAttr := valueNode attr in
    let classList :=
      filter truthy (map trim (split_white_space (value attr))) in
    flat_map
      (fun className =>
         if negb (existsb (fun pattern => match_ className pattern) classPatterns)
         then
           [{| scope := attr;
               message :=
                 t "{0} is unmatched with the below patterns: {1}"
                   [Str (t the_quoted_star_template [Str className; Str "class name"]);
                    Str (String.append dq
                           (String.append
                              (join (String.append dq (String.append ", " dq)) classPatterns)
                              dq))];
               line := option_map startLine classAttr;
               col := option_map startCol classAttr;
               report_raw := option_map raw classAttr |}]
         else [])
      classList.

(** The callback given to [document.walkOn('Element', ...)]. *)
Definition verify_element (el : Element) : list Report :=
  if negb (truthy_value (rule_value el)) then []
  else
    let classPatterns :=
      filter truthy (toNoEmptyStringArrayFromStringOrArray (rule_value el)) in
    let attrs := class_tokens el in
    flat_map (verify_token classPatterns) attrs.

(** [verify]: the elements of the document are visited in document
    order; the result lists the calls of [report] in order. *)
Definition verify (document : list Element) : list Report :=
  flat_map verify_element document.

End Rule.

End ClassNaming.

(* ================================================================== *)
(** ** The [no-empty-palpable-content] rule *)
(* ================================================================== *)

Module NoEmptyPalpableContent.
Import JS I18n.
Local Open Scope string_scope.

Record Options : Type := {
  extendsExposableElements : option bool;
  ignoreIfAriaBusy : option bool
}.

(** A child node: a text node, which knows whether it is white space, or a
    node of another kind. *)
Inductive Node : Type :=
| TextNode (isWhitespace : bool)
| OtherNode.

(** What the rule reads of an element. *)
Record Element : Type := {
  tagName : string;
  attributes : list (string * string);
  childNodes : list Node;
  rule_option : Options
}.

(** The options object passed to [isPalpableElement]. *)
Record PalpableOptions : Type := {
  extendsSvg : bool;
  palpable_extendsExposableElements : option bool
}.

Record Report : Type := {
  scope : Element;
  message : string
}.

(** [el.getAttribute(name)]: the value of the first attribute of that name,
    [null] ([None]) when there is none. *)
Definition getAttribute (el : Element) (name : string) : option string :=
  option_map snd (find (fun a => String.eqb (fst a) name) (attributes el)).

(** Truthiness of an optional boolean option. *)
Definition truthy (b : option bool) : bool :=
  match b with Some true => true | _ => false end.

(** [x === 'true'] for [x : string | null] *)
Definition is_string_true (x : option string) : bool :=
  match x with Some s => String.eqb s "true" | None => false end.

(** [node.is(node.TEXT_NODE) && node.isWhitespace()] *)
Definition is_white_space_text (node : Node) : bool :=
  match node with
  | TextNode w => w
  | OtherNode => false
  end.

Section Rule.
Context {translator : Translator}.
(** [isPalpableElement] and [isVoidElement] of [@markuplint/ml-spec]. *)
Variable isPalpableElement : Element -> PalpableOptions -> bool.
Variable isVoidElement : Element -> bool.

(** The callback given to [document.walkOn('Element', ...)]. *)
Definition verify_element (el : Element) : list Report :=
  if negb (isPalpableElement el
             {| extendsSvg := false;
                palpable_extendsExposableElements :=
                  extendsExposableElements (rule_option el) |})
  then []
  else if isVoidElement el then []
  else if truthy (ignoreIfAriaBusy (rule_option el))
          && is_string_true (getAttribute el "aria-busy")
  then []
  else
    let isEmpty := forallb is_white_space_text (childNodes el) in
    if isEmpty then
      [{| scope := el;
          message := t "{0} should not {1}"
                       [Str (t "the {0}" [Str "element"]); Str "empty"] |}]
    else [].

Definition verify (document : list Element) : list Report :=
  flat_map verify_element document.

End Rule.

End NoEmptyPalpableContent.

(* ================================================================== *)
(** ** A translator and the primitive checkers, for running the rules *)
(* ================================================================== *)

Module Reference.
Import JS I18n.
Local Open Scope string_scope.

Definition show (a : Arg) : string :=
  match a with
  | Str s => s
  | Num n => NilZero.string_of_int (Z.to_int n)
  end.

(** A placeholder at the head of the template: its index and the number of
    bytes after the opening brace, for [{n}], [{n*}] and [{n:c}]. *)
Definition placeholder (tpl : string) : option (nat * nat) :=
  match tpl with
  | String "{" (String d r) =>
      if is_digit d then
        let n := Z.to_nat (digit_value d) in
        match r with
        | String "}" _ => Some (n, 2%nat)
        | String "*" (String "}" _) => Some (n, 3%nat)
        | String ":" (String "c" (String "}" _)) => Some (n, 4%nat)
        | _ => None
        end
      else None
  | _ => None
  end.

Fixpoint format (tpl : string) (skip : nat) (args : list Arg) : string :=
  match tpl with
  | EmptyString => EmptyString
  | String c r =>
      match skip with
      | S k => format r k args
      | O =>
          match placeholder tpl with
          | Some (n, len) =>
              String.append (show (nth n args (Str EmptyString))) (format r len args)
          | None => String c (format r 0 args)
          end
      end
  end.

(** Modelled from the spec: the [Translator] of section 6, "template uses
    positional placeholders [{0}], [{1}], ... and a clause-join modifier
    [{n:c}]", with a list form for enumerations; the English texts are the
    templates themselves. *)
Definition english : Translator := {|
  t := fun template args => format template 0 args;
  t_list := String.concat ", "
|}.

(** The checkers of [PrimitiveCheck] as the functions [attr-check.ts]
    imports. *)
Definition primitives : AttrCheck.PrimitiveChecks := {|
  AttrCheck.floatCheck := PrimitiveCheck.floatCheck;
  AttrCheck.intCheck := PrimitiveCheck.intCheck;
  AttrCheck.nonZeroUintCheck := PrimitiveCheck.nonZeroUintCheck;
  AttrCheck.numberCheckWithUnit := PrimitiveCheck.numberCheckWithUnit;
  AttrCheck.range := PrimitiveCheck.range;
  AttrCheck.splitUnit := PrimitiveCheck.splitUnit;
  AttrCheck.uintCheck := PrimitiveCheck.uintCheck
|}.

(** [toNoEmptyStringArrayFromStringOrArray] for running [class-naming]:
    the array itself, or the one string. *)
Definition toNoEmptyStringArrayFromStringOrArray (v : ClassNaming.Value)
  : list string :=
  match v with
  | ClassNaming.VNull => []
  | ClassNaming.VString s => [s]
  | ClassNaming.VArray a => a
  end.

End Reference.

(* ================================================================== *)
(** ** The rule pages of the website ([website/scripts/prebuild/rules.mjs])

    The file system is outside the model: what [createRuleDoc] reads and
    what [getRulePaths] lists are parameters, [path.resolve] and
    [String.prototype.replace] are parameters, and the calls of [dropFiles]
    and [output] are logged in order. *)
(* ================================================================== *)

Module RuleDocs.
Import JS.
Local Open Scope string_scope.
Local Open Scope list_scope.

Definition is_lower_letter (c : ascii) : bool :=
  (97 <=? code c)%N && (code c <=? 122)%N.

Fixpoint all_lower_letters (s : string) : bool :=
  match s with
  | EmptyString => true
  | String c r => is_lower_letter c && all_lower_letters r
  end.

(** [(/^README(?:\.([a-z]+))?$/.exec(fileName) || [])[1]]: the language of a
    README, [undefined] ([None]) when the group takes no part in the match
    or nothing matches. *)
Definition README_lang (fileName : string) : option string :=
  match strip_prefix "README" fileName with
  | Some EmptyString => None
  | Some (String c l) =>
      if Ascii.eqb c "."
         && match l with EmptyString => false | String _ _ => true end
         && all_lower_letters l
      then Some l else None
  | None => None
  end.

(** A rule page as [createRuleDoc] yields it; [lang] is absent on the
    English page. *)
Record Doc : Type := {
  lang : option string;
  id : string;
  description : string;
  contents : string;
  category : string
}.

(** [{ id, description }], an item of an index. *)
Record Entry : Type := {
  entry_id : string;
  entry_description : string
}.

(** [RuleIndexContents] *)
Record RuleIndexContents : Type := {
  validation : list Entry;
  a11y : list Entry;
  naming_convention : list Entry;
  maintainability : list Entry;
  style : list Entry
}.

(** [RuleIndex], [{ lang, contents }] *)
Record RuleIndex : Type := {
  index_lang : option string;
  index_contents : RuleIndexContents
}.

(** A call of [dropFiles(dir)] or of [output(path, text)]. *)
Inductive Action : Type :=
| DropFiles (dir : string)
| Output (path text : string).

Definition createIndexContents : RuleIndexContents :=
  {| validation := []; a11y := []; naming_convention := [];
     maintainability := []; style := [] |}.

(** [contents[category].push(entry)]: the object has the five keys of
    [createIndexContents]; under any other key there is nothing to push
    to, and the call throws. *)
Definition push_entry (category : string) (entry : Entry) (c : RuleIndexContents)
  : Completion RuleIndexContents :=
  if category =? "validation" then
    Normal {| validation := validation c ++ [entry]; a11y := a11y c;
              naming_convention := naming_convention c;
              maintainability := maintainability c; style := style c |}
  else if category =? "a11y" then
    Normal {| validation := validation c; a11y := a11y c ++ [entry];
              naming_convention := naming_convention c;
              maintainability := maintainability c; style := style c |}
  else if category =? "naming-convention" then
    Normal {| validation := validation c; a11y := a11y c;
              naming_convention := naming_convention c ++ [entry];
              maintainability := maintainability c; style := style c |}
  else if category =? "maintainability" then
    Normal {| validation := validation c; a11y := a11y c;
              naming_convention := naming_convention c;
              maintainability := maintainability c ++ [entry]; style := style c |}
  else if category =? "style" then
    Normal {| validation := validation c; a11y := a11y c;
              naming_convention := naming_convention c;
              maintainability := maintainability c; style := style c ++ [entry] |}
  else Throw "TypeError: Cannot read properties of undefined (reading 'push')".

(** The five keys of an index. *)
Definition is_category (category : string) : bool :=
  (category =? "validation") || (category =? "a11y")
  || (category =? "naming-convention") || (category =? "maintainability")
  || (category =? "style").

(** [{ id: doc.id, description: doc.description }] *)
Definition entry_of (doc : Doc) : Entry :=
  {| entry_id := id doc; entry_description := description doc |}.

(** [contents[category]] read as a list, empty under an unknown key. *)
Definition entries_of (category : string) (c : RuleIndexContents) : list Entry :=
  if category =? "validation" then validation c
  else if category =? "a11y" then a11y c
  else if category =? "naming-convention" then naming_convention c
  else if category =? "maintainability" then maintainability c
  else if category =? "style" then style c
  else [].

(** [a === b] on [string | undefined] *)
Definition same_lang (a b : option string) : bool :=
  match a, b with
  | Some x, Some y => x =? y
  | None, None => true
  | _, _ => false
  end.

(** [!lang] and [!href]: [undefined] and the empty string are falsy. *)
Definition falsy (x : option string) : bool :=
  match x with
  | None => true
  | Some s => s =? ""
  end.

Definition text_of (x : option string) : string :=
  match x with Some s => s | None => "undefined" end.

(** The index found by [indexes.find(...)] is the object held by the array:
    pushing to its contents changes the array's element. *)
Fixpoint update_found (l : option string) (updated : RuleIndex) (indexes : list RuleIndex)
  : list RuleIndex :=
  match indexes with
  | [] => []
  | idx :: rest =>
      if same_lang (index_lang idx) l then updated :: rest
      else idx :: update_found l updated rest
  end.

Definition newline : string := String (ascii_of_N 10) EmptyString.

(** [a.join(sep)] *)
Definition join (sep : string) (a : list string) : string := String.concat sep a.

(** [ruleListItem] *)
Definition ruleListItem (id description : string) (href : option string) : string :=
  if falsy href
  then String.append "[`" (String.append id (String.append "`](/rules/"
         (String.append id (String.append ")|" description))))
  else String.append "[`" (String.append id (String.append "`]("
         (String.append (text_of href) (String.append ")|" description)))).

(** [table] *)
Definition table (rules : list Entry) : list string :=
  ["Rule ID|Description"; "---|---"]
  ++ map (fun rule => ruleListItem (entry_id rule) (entry_description rule) None) rules.

(** [removedTable] *)
Definition removedTable (rules : list (string * string * string)) (drop : string)
  : list string :=
  ["Rule ID|Description|Drop"; "---|---|---"]
  ++ map (fun line => String.append line
                        (String.append "|Since `" (String.append drop "`")))
         (map (fun rule =>
                 match rule with
                 | (id, href, description) => ruleListItem id description (Some href)
                 end) rules).

(** The lines that [crateRuleIndexDoc] joins. *)
Definition indexDoc_lines (index : RuleIndexContents) : list string :=
  ["---"; "title: Rules"; "sidebar_class_name: hidden"; "---";
   "## Conformance checking"]
  ++ table (validation index)
  ++ ["## Accessibility"] ++ table (a11y index)
  ++ ["## Naming Convention"] ++ table (naming_convention index)
  ++ ["## Maintainability"] ++ table (maintainability index)
  ++ ["## Style"] ++ table (style index)
  ++ ["---"; "## Removed rules"]
  ++ removedTable
       [("attr-equal-space-after",
         "https://v1.markuplint.dev/rules/attr-equal-space-after",
         "Spaces after the equal of attribute");
        ("attr-equal-space-before",
         "https://v1.markuplint.dev/rules/attr-equal-space-before",
         "Spaces before the equal of attribute");
        ("attr-spacing",
         "https://v1.markuplint.dev/rules/attr-spacing",
         "Spaces between attributes");
        ("indentation",
         "https://v1.markuplint.dev/rules/indentation",
         "Indentation")]
       "v3.0".

(** What the indexes hold once the pages [seen] have been gone through:
    one index per language met, each listing under every key the pages of
    its language and that category, in the order met. *)
Definition consistent (seen : list Doc) (indexes : list RuleIndex) : Prop :=
  NoDup (map index_lang indexes)
  /\ (forall idx key,
        In idx indexes ->
        entries_of key (index_contents idx) =
        map entry_of
            (filter (fun doc => same_lang (lang doc) (index_lang idx)
                                && (category doc =? key)) seen))
  /\ (forall l, In l (map index_lang indexes) <-> In l (map lang seen)).

Section Build.
(** [path.resolve(...segments)], [s.replace(pattern, replacement)] with a
    string pattern, [createRuleDoc(path)] and [getRulePaths()]. *)
Variable resolve : list string -> string.
Variable replace : string -> string -> string -> string.
Variable createRuleDoc : string -> list Doc.
Variable getRulePaths : list string.

(** [crateRuleIndexDoc(index, ruleDocsDistDir)] *)
Definition crateRuleIndexDoc (index : RuleIndexContents) (ruleDocsDistDir : string)
  : list Action :=
  [Output (resolve [ruleDocsDistDir; "index.md"]) (join newline (indexDoc_lines index))].

(** [dist], where the page of [doc] is written: the English directory when
    [doc.lang] is falsy, the directory of its language otherwise. *)
Definition dist_of (ruleDocsDistDir ruleDocsI18nDistDir : string) (doc : Doc) : string :=
  if falsy (lang doc)
  then resolve [ruleDocsDistDir; String.append (id doc) ".md"]
  else resolve [replace ruleDocsI18nDistDir "<lang>" (text_of (lang doc));
                String.append (id doc) ".md"].

(** The loop [for (const doc of docs)] of [createEachRule], from the indexes
    built and the calls logged so far. *)
Fixpoint each_doc (ruleDocsDistDir ruleDocsI18nDistDir : string) (docs : list Doc)
         (indexes : list RuleIndex) (log : list Action)
  : Completion (list RuleIndex) * list Action :=
  match docs with
  | [] => (Normal indexes, log)
  | doc :: rest =>
      let found := find (fun idx => same_lang (index_lang idx) (lang doc)) indexes in
      let index :=
        match found with
        | Some idx => idx
        | None => {| index_lang := lang doc; index_contents := createIndexContents |}
        end in
      match push_entry (category doc) (entry_of doc) (index_contents index) with
      | Throw e => (Throw e, log)
      | Normal pushed =>
          let index := {| index_lang := index_lang index; index_contents := pushed |} in
          let indexes :=
            match found with
            | Some _ => update_found (lang doc) index indexes
            | None => indexes ++ [index]
            end in
          let dist := dist_of ruleDocsDistDir ruleDocsI18nDistDir doc in
          each_doc ruleDocsDistDir ruleDocsI18nDistDir rest indexes
                   (log ++ [Output dist (contents doc)])
      end
  end.

(** The loop [for (const path of paths)]. *)
Fixpoint each_path (ruleDocsDistDir ruleDocsI18nDistDir : string) (paths : list string)
         (indexes : list RuleIndex) (log : list Action)
  : Completion (list RuleIndex) * list Action :=
  match paths with
  | [] => (Normal indexes, log)
  | path :: rest =>
      match each_doc ruleDocsDistDir ruleDocsI18nDistDir (createRuleDoc path)
                     indexes log with
      | (Normal indexes, log) =>
          each_path ruleDocsDistDir ruleDocsI18nDistDir rest indexes log
      | (Throw e, log) => (Throw e, log)
      end
  end.

(** [createEachRule(paths, ruleDocsDistDir, ruleDocsI18nDistDir)]: the
    indexes, or what was thrown, and the files written. *)
Definition createEachRule (paths : list string)
           (ruleDocsDistDir ruleDocsI18nDistDir : string)
  : Completion (list RuleIndex) * list Action :=
  each_path ruleDocsDistDir ruleDocsI18nDistDir paths [] [].

(** [createRuleDocs()], from [projectRoot]. *)
Definition createRuleDocs (projectRoot : string) : Completion unit * list Action :=
  let websiteDir := resolve [projectRoot; "website"] in
  let ruleDocsDistDir := resolve [websiteDir; "docs"; "rules"] in
  let ruleDocsI18nDistDir :=
    resolve [websiteDir; "i18n"; "<lang>"; "docusaurus-plugin-content-docs";
             "current"; "rules"] in
  let paths := getRulePaths in
  let dropped := [DropFiles ruleDocsDistDir] in
  match createEachRule paths ruleDocsDistDir ruleDocsI18nDistDir with
  | (Throw e, log) => (Throw e, dropped ++ log)
  | (Normal indexes, log) =>
      (Normal tt,
       dropped ++ log
       ++ flat_map
            (fun index =>
               crateRuleIndexDoc
                 (index_contents index)
                 (if falsy (index_lang index) then ruleDocsDistDir
                  else replace ruleDocsI18nDistDir "<lang>" (text_of (index_lang index))))
            indexes)
  end.

(** What the loops have done when they are through, or when a page of an
    unknown category stops them. *)
Definition outcome (ruleDocsDistDir ruleDocsI18nDistDir : string)
           (docs seen : list Doc) (log : list Action)
           (r : Completion (list RuleIndex) * list Action) : Prop :=
  match r with
  | (Normal indexes, log') =>
      forallb (fun doc => is_category (category doc)) docs = true
      /\ consistent (seen ++ docs) indexes
      /\ log' = log ++ map (fun doc =>
                              Output (dist_of ruleDocsDistDir
                                              ruleDocsI18nDistDir doc)
                                     (contents doc)) docs
  | (Throw _, log') =>
      exists good bad rest,
        docs = good ++ bad :: rest
        /\ forallb (fun doc => is_category (category doc)) good = true
        /\ is_category (category bad) = false
        /\ log' = log ++ map (fun doc =>
                                Output (dist_of ruleDocsDistDir
                                                ruleDocsI18nDistDir doc)
                                       (contents doc)) good
  end.

End Build.

End RuleDocs.

(* ================================================================== *)
(** ** Data for running the rules on examples *)
(* ================================================================== *)

Module Fixtures.
Import I18n.
Local Open Scope string_scope.

(** A translator that has no text for anything. *)
Definition silent : Translator := {|
  t := fun _ _ => EmptyString;
  t_list := fun _ => EmptyString
|}.

(** [path.resolve] on segments that need no normalising: joined by [/]. *)
Definition resolve (segments : list string) : string := String.concat "/" segments.

(** [s.replace('<lang>', lang)] when [s] is the i18n directory pattern. *)
Definition replace (s pattern replacement : string) : string :=
  if String.eqb s "/site/i18n/<lang>/rules" && String.eqb pattern "<lang>"
  then String.append "/site/i18n/" (String.append replacement "/rules")
  else s.

(** Two rules, the first with a Japanese page, and a page whose front
    matter names no known category. *)
Definition page_a : RuleDocs.Doc :=
  {| RuleDocs.lang := None; RuleDocs.id := "attr-duplication";
     RuleDocs.description := "No duplicate attributes";
     RuleDocs.contents := "# attr-duplication";
     RuleDocs.category := "validation" |}.

Definition page_a_ja : RuleDocs.Doc :=
  {| RuleDocs.lang := Some "ja"; RuleDocs.id := "attr-duplication";
     RuleDocs.description := "No duplicate attributes (ja)";
     RuleDocs.contents := "# attr-duplication (ja)";
     RuleDocs.category := "validation" |}.

Definition page_b : RuleDocs.Doc :=
  {| RuleDocs.lang := None; RuleDocs.id := "class-naming";
     RuleDocs.description := "Class names";
     RuleDocs.contents := "# class-naming";
     RuleDocs.category := "naming-convention" |}.

Definition page_c : RuleDocs.Doc :=
  {| RuleDocs.lang := None; RuleDocs.id := "draft";
     RuleDocs.description := "A draft";
     RuleDocs.contents := "# draft";
     RuleDocs.category := "misc" |}.

Definition createRuleDoc (path : string) : list RuleDocs.Doc :=
  if String.eqb path "rules/attr-duplication" then [page_a; page_a_ja]
  else if String.eqb path "rules/class-naming" then [page_b]
  else [page_c].

End Fixtures.

(* ================================================================== *)
(** ** Properties of the dispatcher *)
(* ================================================================== *)

Module AttrCheckFacts.
Import JS I18n AttrCheck.
Local Open Scope string_scope.

Lemma strip_prefix_app (p rest : string) :
  strip_prefix p (String.append p rest) = Some rest.
Proof.
  induction p as [|a p IH]; simpl; [reflexivity|].
  now rewrite Ascii.eqb_refl.
Qed.

Lemma strip_prefix_inv (p s rest : string) :
  strip_prefix p s = Some rest -> s = String.append p rest.
Proof.
  revert s; induction p as [|a p IH]; simpl; intros s H.
  - now inversion H.
  - destruct s as [|b s]; [discriminate|].
    destruct (Ascii.eqb a b) eqn:E; [|discriminate].
    apply Ascii.eqb_eq in E; subst b. f_equal. now apply IH.
Qed.

(** What [/^data-.+$/] asks of a name: something follows [data-], and
    nothing in it ends a line. *)
Lemma is_data_attribute_iff (name : string) :
  is_data_attribute name = true <->
  exists rest, name = String.append "data-" rest
               /\ rest <> "" /\ has_line_terminator rest = false.
Proof.
  unfold is_data_attribute, test_literal_then_any. split.
  - destruct (strip_prefix "data-" name) as [rest|] eqn:E; [|discriminate].
    intros H. exists rest. apply strip_prefix_inv in E.
    destruct rest as [|c r]; [discriminate|].
    unfold dot_plus in H. apply negb_true_iff in H.
    repeat split; [exact E | discriminate | exact H].
  - intros (rest & -> & Hne & Hlt).
    rewrite strip_prefix_app. destruct rest as [|c r]; [congruence|].
    unfold dot_plus. now rewrite Hlt.
Qed.

Section Facts.
Context {translator : Translator} {primitives : PrimitiveChecks}.

Lemma attrCheck_not_exempted name value isCustomRule spec :
  not_exempted name isCustomRule ->
  attrCheck name value isCustomRule spec =
  match spec with
  | None =>
      Normal (Some {| invalidType := NonExistent;
                      message := t "{0} is {1}"
                                   [Str (t the_quoted_template [Str name; Str "attribute"]);
                                    Str "disallow"] |})
  | Some spec =>
      match valueCheck name value spec with
      | Normal (Some msg) =>
          if truthy msg
          then Normal (Some {| invalidType := InvalidValue; message := msg |})
          else Normal None
      | Normal None => Normal None
      | Throw e => Throw e
      end
  end.
Proof.
  intros [-> | [Hd Ha]]; unfold attrCheck; simpl.
  - destruct spec as [sp|]; [|reflexivity].
    destruct (valueCheck name value sp) as [[m|]|e]; reflexivity.
  - rewrite Hd, Ha. destruct isCustomRule; simpl;
      (destruct spec as [sp|]; [|reflexivity]);
      destruct (valueCheck name value sp) as [[m|]|e]; reflexivity.
Qed.

Lemma includesEnum_normal name value enumValues :
  exists m, includesEnum name value (Some enumValues) = Normal m.
Proof.
  unfold includesEnum. cbv zeta.
  destruct (includes enumValues (toLowerCase value)); eexists; reflexivity.
Qed.

Lemma get_enum_some members :
  existsb (fun m => fst m =? "enum") members = true ->
  exists enumValues, get_enum (TypeObject members) = Some enumValues.
Proof.
  unfold get_enum. induction members as [|m ms IH]; simpl; [discriminate|].
  destruct (fst m =? "enum"); simpl; [eexists; reflexivity | exact IH].
Qed.

(** [valueCheck] returns: the only operation that can throw, [in], is
    reached for objects only. *)
Lemma valueCheck_normal name value spec :
  exists m, valueCheck name value spec = Normal m.
Proof.
  destruct spec as [[tag | members]].
  - unfold valueCheck, is_type; cbn [type not_a_string bind].
    repeat match goal with
           | |- exists m, (if ?b then _ else _) = _ =>
               destruct b;
               [ solve [ eexists; reflexivity | apply includesEnum_normal ] | ]
           end.
    eexists; reflexivity.
  - unfold valueCheck; cbn [type not_a_string js_in bind].
    destruct (existsb (fun m => fst m =? "enum") members) eqn:E.
    + destruct (get_enum_some members E) as [ev ->]. apply includesEnum_normal.
    + eexists; reflexivity.
Qed.

(** A type name for which [valueCheck] has no check is accepted. *)
Lemma valueCheck_unchecked name value tag :
  ~ In tag checked_types ->
  valueCheck name value {| type := TypeName tag |} = Normal None.
Proof.
  intros H.
  unfold valueCheck, is_type; cbn [type not_a_string bind].
  repeat match goal with
         | |- (if ?b then _ else _) = _ =>
             destruct b eqn:E;
             [ first [ reflexivity
                     | exfalso; apply H;
                       try (apply andb_prop in E; destruct E as [E _]);
                       apply String.eqb_eq in E; rewrite E;
                       unfold checked_types; simpl; tauto ]
             | clear E ]
         end.
  reflexivity.
Qed.

Lemma unchecked_not_checked tag :
  In tag unchecked_types -> ~ In tag checked_types.
Proof.
  unfold unchecked_types. simpl.
  intros H.
  repeat (destruct H as [<- | H];
          [ intros C; unfold checked_types in C; simpl in C;
            repeat (destruct C as [C | C]; [discriminate C|]); exact C | ]).
  destruct H.
Qed.

End Facts.

Section Claims.
Context {translator : Translator} {primitives : PrimitiveChecks}.

(** C2.  Outside a custom rule, a name matching [/^data-.+$/] or
    [/^aria-.+$|^role$/] is valid whatever the value and the spec, a
    missing spec included. *)
Theorem exempted_name_is_valid (name value : string) (spec : option AttrSpec) :
  is_data_attribute name = true \/ is_aria_or_role name = true ->
  attrCheck name value false spec = Normal None.
Proof.
  unfold attrCheck; cbn [negb].
  intros [H | H]; rewrite H; [reflexivity|].
  now destruct (is_data_attribute name).
Qed.

(** C9.  The name [data-] alone does not match [/^data-.+$/], which wants
    a character after the hyphen; without a spec it gets the
    [non-existent] verdict, also outside a custom rule. *)
Theorem bare_data_prefix_is_not_exempted (value : string) :
  is_data_attribute "data-" = false
  /\ attrCheck "data-" value false None =
     Normal (Some {| invalidType := NonExistent;
                     message := t "{0} is {1}"
                                  [Str (t the_quoted_template
                                          [Str "data-"; Str "attribute"]);
                                   Str "disallow"] |}).
Proof. split; reflexivity. Qed.

(** C1.  For a name that is not exempted, [attrCheck] returns an
    [Invalid] of type [non-existent] exactly when no spec is given; and
    whatever the name, a [non-existent] verdict means no spec was given. *)
Theorem non_existent_iff_no_spec
        (name value : string) (isCustomRule : bool) (spec : option AttrSpec) :
  (not_exempted name isCustomRule ->
   ((exists msg, attrCheck name value isCustomRule spec =
                 Normal (Some {| invalidType := NonExistent; message := msg |}))
    <-> spec = None))
  /\ (forall inv, attrCheck name value isCustomRule spec = Normal (Some inv) ->
                  invalidType inv = NonExistent -> spec = None).
Proof.
  assert (Hval : forall sp inv,
             match valueCheck name value sp with
             | Normal (Some msg) =>
                 if truthy msg
                 then Normal (Some {| invalidType := InvalidValue; message := msg |})
                 else Normal None
             | Normal None => Normal None
             | Throw e => Throw e
             end = Normal (Some inv) -> invalidType inv = InvalidValue).
  { intros sp inv. destruct (valueCheck name value sp) as [[m|]|e]; try discriminate.
    destruct (truthy m); [|discriminate]. now intros [= <-]. }
  split.
  - intros Hne. rewrite (attrCheck_not_exempted name value isCustomRule spec Hne).
    destruct spec as [sp|]; split.
    + intros [msg H]. apply Hval in H. discriminate H.
    + discriminate.
    + reflexivity.
    + intros _. eexists; reflexivity.
  - intros inv H Hty. destruct spec as [sp|]; [exfalso|reflexivity].
    unfold attrCheck in H.
    assert (Hv := Hval sp inv).
    unfold bind in H.
    destruct (negb isCustomRule);
      [destruct (is_data_attribute name); [discriminate|];
       destruct (is_aria_or_role name); [discriminate|] |];
      apply Hv in H; congruence.
Qed.

(** C4.  For a type name [valueCheck] leaves unchecked (Boolean,
    Function, Date, AcceptList, ..., SVGViewBox), and for a type name no
    branch mentions, every value is valid. *)
Theorem unchecked_type_is_valid
        (tag name value : string) (isCustomRule : bool) :
  In tag unchecked_types \/ ~ In tag (checked_types ++ unchecked_types) ->
  valueCheck name value {| type := TypeName tag |} = Normal None
  /\ attrCheck name value isCustomRule (Some {| type := TypeName tag |}) = Normal None.
Proof.
  intros H.
  assert (Hc : ~ In tag checked_types).
  { destruct H as [H | H]; [now apply unchecked_not_checked|].
    intros C. apply H. apply in_or_app. now left. }
  assert (Hv := valueCheck_unchecked name value tag Hc).
  split; [exact Hv|].
  unfold attrCheck. rewrite Hv. cbn [bind].
  destruct (negb isCustomRule); [|reflexivity].
  destruct (is_data_attribute name); [reflexivity|].
  now destruct (is_aria_or_role name).
Qed.

(** C8.  [attrCheck] returns for every name, value, flag and optional
    spec: it never throws, and what it returns is [false] ([None]) or an
    [Invalid] record; a record of type [invalid-value] has a non-empty
    message. *)
Theorem attrCheck_total
        (name value : string) (isCustomRule : bool) (spec : option AttrSpec) :
  exists result : option Invalid,
    attrCheck name value isCustomRule spec = Normal result
    /\ (result = None
        \/ exists ty msg, result = Some {| invalidType := ty; message := msg |}
                          /\ (ty = InvalidValue -> msg <> "")).
Proof.
  assert (Hrest :
    exists result : option Invalid,
      match spec with
      | None =>
          Normal (Some {| invalidType := NonExistent;
                          message := t "{0} is {1}"
                                       [Str (t the_quoted_template [Str name; Str "attribute"]);
                                        Str "disallow"] |})
      | Some spec =>
          invalid <- valueCheck name value spec ;;
          match invalid with
          | Some msg =>
              if truthy msg
              then Normal (Some {| invalidType := InvalidValue; message := msg |})
              else Normal None
          | None => Normal None
          end
      end = Normal result
      /\ (result = None
          \/ exists ty msg, result = Some {| invalidType := ty; message := msg |}
                            /\ (ty = InvalidValue -> msg <> ""))).
  { destruct spec as [sp|].
    - destruct (valueCheck_normal name value sp) as [[m|] ->]; cbn [bind].
      + destruct m as [|c m]; cbn [truthy].
        * eexists; split; [reflexivity | now left].
        * eexists; split; [reflexivity|]. right. do 2 eexists.
          split; [reflexivity | discriminate].
      + eexists; split; [reflexivity | now left].
    - eexists; split; [reflexivity|]. right. do 2 eexists.
      split; [reflexivity | discriminate]. }
  unfold attrCheck.
  destruct (negb isCustomRule); [|exact Hrest].
  destruct (is_data_attribute name); [eexists; split; [reflexivity | now left]|].
  destruct (is_aria_or_role name); [eexists; split; [reflexivity | now left]|].
  exact Hrest.
Qed.

End Claims.

(** Witnesses, with the English translator and the checkers of
    [PrimitiveCheck]. *)

Lemma exempted_name_is_valid_witness :
  @attrCheck Reference.english Reference.primitives
             "aria-label" "x" false None = Normal None.
Proof.
  apply (@exempted_name_is_valid Reference.english Reference.primitives).
  right. reflexivity.
Defined.

Lemma non_existent_iff_no_spec_witness :
  exists msg,
    @attrCheck Reference.english Reference.primitives "href" "x" false None =
    Normal (Some {| invalidType := NonExistent; message := msg |}).
Proof.
  apply (proj1 (@non_existent_iff_no_spec Reference.english Reference.primitives
                  "href" "x" false None)).
  - right. split; reflexivity.
  - reflexivity.
Defined.

Lemma unchecked_type_is_valid_witness :
  @attrCheck Reference.english Reference.primitives "href" "not a url" false
             (Some {| type := TypeName "URL" |}) = Normal None.
Proof.
  apply (@unchecked_type_is_valid Reference.english Reference.primitives
           "URL" "href" "not a url" false).
  left. unfold unchecked_types. simpl. tauto.
Defined.

End AttrCheckFacts.

(* ================================================================== *)
(** ** Properties of the primitive checkers *)
(* ================================================================== *)

Module PrimitiveCheckFacts.
Import JS PrimitiveCheck.
Local Open Scope string_scope.

Lemma span_digits_whole (s d : string) :
  span_digits s = (d, EmptyString) -> d = s.
Proof.
  revert d; induction s as [|c r IH]; simpl; intros d H.
  - now inversion H.
  - destruct (is_digit c); [|discriminate].
    destruct (span_digits r) as [d' rest] eqn:E.
    inversion H; subst. f_equal. now apply IH.
Qed.

Lemma span_digits_head (c : ascii) (r : string) :
  span_digits (String c r) = (String c r, EmptyString) ->
  is_digit c = true /\ span_digits r = (r, EmptyString).
Proof.
  simpl. destruct (is_digit c); [|discriminate].
  destruct (span_digits r) as [d rest]. intros H; inversion H; subst. now split.
Qed.

(** A printable ASCII character is not white space. *)
Lemma white_space_len_printable (c : ascii) (r : string) :
  ((33 <=? code c)%N && (code c <=? 126)%N)%bool = true ->
  white_space_len (String c r) = 0%nat.
Proof.
  intros H.
  destruct c as [[] [] [] [] [] [] [] []]; try discriminate H;
    destruct r as [|c1 [|c2 r2]]; reflexivity.
Qed.

Lemma digit_printable (c : ascii) :
  is_digit c = true -> ((33 <=? code c)%N && (code c <=? 126)%N)%bool = true.
Proof.
  unfold is_digit. intros H. apply andb_prop in H as [H1 H2].
  apply N.leb_le in H1, H2. apply andb_true_intro; split; apply N.leb_le; lia.
Qed.

Lemma digit_is_not (c x : ascii) :
  is_digit c = true -> is_digit x = false -> Ascii.eqb c x = false.
Proof.
  intros Hc Hx. destruct (Ascii.eqb c x) eqn:E; [|reflexivity].
  apply Ascii.eqb_eq in E. congruence.
Qed.

(** The shape of a string [parse_integer] reads. *)
Lemma parse_integer_inv (s : string) (z : Z) :
  parse_integer s = Some z ->
  exists sign c r,
    read_sign s = (sign, String c r)
    /\ span_digits (String c r) = (String c r, EmptyString)
    /\ z = sign * digits_prefix (String c r) 0.
Proof.
  unfold parse_integer.
  destruct (read_sign s) as [sign body] eqn:Es.
  destruct (span_digits body) as [d rest] eqn:Ed.
  destruct d as [|c r]; [discriminate|].
  destruct rest; [|discriminate].
  cbn [is_empty orb negb]. intros [= <-].
  assert (String c r = body) by now apply span_digits_whole.
  subst body. now exists sign, c, r.
Qed.

Lemma trimStart_integer (s : string) (z : Z) :
  parse_integer s = Some z -> trimStart s = s.
Proof.
  intros H. destruct (parse_integer_inv s z H) as (sign & c & r & Hs & Hd & _).
  apply span_digits_head in Hd as [Hc _].
  destruct s as [|a s']; [reflexivity|].
  unfold trimStart; cbn [String.length trim_start_fuel].
  rewrite white_space_len_printable; [reflexivity|].
  cbn [read_sign] in Hs.
  destruct (Ascii.eqb a "-") eqn:E1; [apply Ascii.eqb_eq in E1; now subst a|].
  destruct (Ascii.eqb a "+") eqn:E2; [apply Ascii.eqb_eq in E2; now subst a|].
  inversion Hs; subst. now apply digit_printable.
Qed.

(** On a string [intCheck] accepts, JavaScript's [parseInt] gives the
    integer it denotes. *)
Lemma parseInt_integer (s : string) (z : Z) :
  parse_integer s = Some z -> parseInt s = Some z.
Proof.
  intros H. unfold parseInt. rewrite (trimStart_integer s z H).
  destruct (parse_integer_inv s z H) as (sign & c & r & -> & Hd & ->).
  apply span_digits_head in Hd as [Hc Hr].
  cbn [starts_with_digit]. rewrite Hc.
  destruct r as [|x r']; [reflexivity|].
  apply span_digits_head in Hr as [Hx _].
  rewrite (digit_is_not x "x" Hx eq_refl), (digit_is_not x "X" Hx eq_refl).
  now rewrite andb_false_r.
Qed.

(** On such a string [parse_number] gives the same integer. *)
Lemma parse_number_integer (s : string) (z : Z) :
  parse_integer s = Some z ->
  exists q, parse_number s = Some q /\ (q == inject_Z z)%Q.
Proof.
  intros H.
  destruct (parse_integer_inv s z H) as (sign & c & r & Hs & Hd & ->).
  unfold parse_number. rewrite Hs, Hd. cbn.
  eexists; split; [reflexivity|].
  rewrite inject_Z_mult. unfold Qdiv. change (/ inject_Z 1)%Q with 1%Q.
  change (inject_Z 0) with 0%Q. ring.
Qed.

Lemma range_integer (s : string) (z lo hi : Z) :
  parse_integer s = Some z ->
  range s (inject_Z lo) (inject_Z hi) = ((lo <=? z)%Z && (z <=? hi)%Z)%bool.
Proof.
  intros H. destruct (parse_number_integer s z H) as (q & Hq & Heq).
  unfold range. rewrite Hq.
  apply eq_true_iff_eq.
  rewrite !andb_true_iff, !Qle_bool_iff, !Z.leb_le, Heq, <- !Zle_Qle.
  reflexivity.
Qed.

Lemma intCheck_iff (s : string) :
  intCheck s = true <-> exists z, parse_integer s = Some z.
Proof.
  unfold intCheck. destruct (parse_integer s) as [z|]; split;
    try discriminate; eauto. intros [z H]; discriminate.
Qed.

End PrimitiveCheckFacts.

(* ================================================================== *)
(** ** The numeric types of the dispatcher, with the checkers of
       [PrimitiveCheck] *)
(* ================================================================== *)

Module NumericTypes.
Import JS I18n AttrCheck PrimitiveCheckFacts.
Local Open Scope string_scope.

(** The three branches, whatever the translator and the checkers are. *)
Section Branches.
Context {translator : Translator} {primitives : PrimitiveChecks}.

Lemma valueCheck_ColSpan (name value : string) :
  valueCheck name value {| type := TypeName "ColSpan" |} =
  Normal
    (if intCheck value && range value 0 1000
     then None
     else Some (t "{0} expects {1:c}"
                  [Str (t the_quoted_template [Str name; Str "attribute"]);
                   Str (t "{0:c} and {1:c}"
                          [Str (t "{0} greater than {1}"
                                  [Str "non-negative integer"; Str "zero"]);
                           Str (t "less than or equal to {0}" [Num 1000])])])).
Proof. reflexivity. Qed.

Lemma valueCheck_TabIndex (name value : string) :
  valueCheck name value {| type := TypeName "TabIndex" |} =
  Normal
    (let expects :=
       Some (t "{0} expects {1:c}"
               [Str (t the_quoted_template [Str name; Str "attribute"]);
                Str (t "either {0}"
                       [Str (t_list ["-1"; "zero"; "non-negative integer"])])]) in
     if intCheck value then
       let i := parseInt value in
       if num_le (-1) i then None
       else if num_gt (-1) i then
         Some (t "{0} behaves the same as {1} if {2}"
                 [Str (t the_quoted_template [Str name; Str "attribute"]);
                  Str "-1"; Str (t "less than {0}" [Str "-1"])])
       else expects
     else expects).
Proof. reflexivity. Qed.

Lemma valueCheck_CSSOpacity (name value : string) :
  valueCheck name value {| type := TypeName "CSSOpacity" |} =
  Normal
    (let (num, unit) := splitUnit value in
     if unit =? "%" then
       if range num 0 100 then None
       else Some (t "{0} expects {1:c}"
                    [Str (t the_quoted_template [Str name; Str "attribute"]);
                     Str (t "{0} as {1}"
                            [Str (t "{0} to {1}" [Str "0%"; Str "100%"]);
                             Str "alpha channel value"])])
     else
       if range num 0 1 then None
       else Some (t "{0} expects {1:c}"
                    [Str (t the_quoted_template [Str name; Str "attribute"]);
                     Str (t "{0} as {1}"
                            [Str (t "{0} to {1}" [Str "0"; Str "1"]);
                             Str "alpha channel value"])])).
Proof. reflexivity. Qed.

(** The verdict of [attrCheck] on a name that is not exempted, from what
    [valueCheck] returned. *)
Lemma attrCheck_of_valueCheck name value isCustomRule spec (r : option string) :
  not_exempted name isCustomRule ->
  message_not_empty name value spec ->
  valueCheck name value spec = Normal r ->
  attrCheck name value isCustomRule (Some spec) =
  Normal (option_map (fun msg => {| invalidType := InvalidValue; message := msg |}) r).
Proof.
  intros Hne Hmsg Hv.
  rewrite (AttrCheckFacts.attrCheck_not_exempted name value isCustomRule _ Hne), Hv.
  destruct r as [msg|]; [|reflexivity].
  now rewrite (Hmsg msg Hv).
Qed.

(** [CSSOpacity]: the unit ["%"] selects the range 0 to 100, every other
    unit, the empty one included, the range 0 to 1. *)
Lemma CSSOpacity_dispatch (name value : string) :
valueCheck name value {| type := TypeName "CSSOpacity" |} = Normal None <->
(let (num, unit) := splitUnit value in
 if unit =? "%" then range num 0 100 else range num 0 1) = true.
Proof.
rewrite valueCheck_CSSOpacity.
destruct (splitUnit value) as [num unit].
destruct (unit =? "%").
- destruct (range num 0 100); split; congruence.
- destruct (range num 0 1); split; congruence.
Qed.

(** [ColSpan] and [TabIndex] accept what their conditions accept. *)
Lemma ColSpan_dispatch (name value : string) :
valueCheck name value {| type := TypeName "ColSpan" |} = Normal None <->
intCheck value && range value 0 1000 = true.
Proof.
rewrite valueCheck_ColSpan.
destruct (intCheck value && range value 0 1000); split; congruence.
Qed.

Lemma TabIndex_dispatch (name value : string) :
valueCheck name value {| type := TypeName "TabIndex" |} = Normal None <->
intCheck value && num_le (-1) (parseInt value) = true.
Proof.
rewrite valueCheck_TabIndex. cbv zeta.
destruct (intCheck value); cbn [andb]; [|split; discriminate].
destruct (num_le (-1) (parseInt value)); [split; reflexivity|].
destruct (num_gt (-1) (parseInt value)); split; discriminate.
Qed.

End Branches.

#[local] Existing Instance Reference.primitives.

Lemma ColSpan_condition (value : string) :
  PrimitiveCheck.intCheck value && PrimitiveCheck.range value 0 1000 = true <->
  exists z, PrimitiveCheck.parse_integer value = Some z /\ (0 <= z <= 1000)%Z.
Proof.
  rewrite andb_true_iff, intCheck_iff. split.
  - intros [[z Hz] Hr]. exists z. split; [exact Hz|].
    change 0%Q with (inject_Z 0) in Hr. change 1000%Q with (inject_Z 1000) in Hr.
    rewrite (range_integer value z 0 1000 Hz) in Hr.
    apply andb_prop in Hr as [H1 H2]. apply Z.leb_le in H1, H2. lia.
  - intros (z & Hz & Hlo & Hhi). split; [now exists z|].
    change 0%Q with (inject_Z 0). change 1000%Q with (inject_Z 1000).
    rewrite (range_integer value z 0 1000 Hz).
    apply andb_true_intro; split; now apply Z.leb_le.
Qed.

Section Claims.
Context {translator : Translator}.

(** C7.  For a spec of type [ColSpan], a value is accepted exactly when
    it is an integer between 0 and 1000, both included: ["1000"] and
    ["0"] are valid, ["1001"] and ["-1"] are invalid.  The name is one
    that reaches the value check and the translator's complaint is not
    the empty string (which [attrCheck] would take for [false]). *)
Theorem ColSpan_valid_iff_integer_0_to_1000
        (name : string) (isCustomRule : bool)
        (Hname : not_exempted name isCustomRule)
        (Hmsg : forall value,
            message_not_empty name value {| type := TypeName "ColSpan" |}) :
  let check value :=
    attrCheck name value isCustomRule (Some {| type := TypeName "ColSpan" |}) in
  let invalid value :=
    exists msg, check value =
                Normal (Some {| invalidType := InvalidValue; message := msg |}) in
  (forall value,
      check value = Normal None <->
      exists z, PrimitiveCheck.parse_integer value = Some z /\ (0 <= z <= 1000)%Z)
  /\ (forall value, check value = Normal None \/ invalid value)
  /\ check "1000" = Normal None
  /\ check "0" = Normal None
  /\ invalid "1001"
  /\ invalid "-1".
Proof.
  intros check invalid.
  assert (Hcheck : forall value,
             check value =
             Normal (option_map
                       (fun msg => {| invalidType := InvalidValue; message := msg |})
                       (if PrimitiveCheck.intCheck value
                           && PrimitiveCheck.range value 0 1000
                        then None
                        else Some (t "{0} expects {1:c}"
                               [Str (t the_quoted_template [Str name; Str "attribute"]);
                                Str (t "{0:c} and {1:c}"
                                       [Str (t "{0} greater than {1}"
                                               [Str "non-negative integer"; Str "zero"]);
                                        Str (t "less than or equal to {0}"
                                               [Num 1000])])])))).
  { intros value. unfold check.
    apply attrCheck_of_valueCheck;
      [exact Hname | apply Hmsg | exact (valueCheck_ColSpan name value)]. }
  repeat split.
  - rewrite Hcheck, <- ColSpan_condition.
    destruct (PrimitiveCheck.intCheck value && PrimitiveCheck.range value 0 1000);
      [reflexivity | discriminate].
  - rewrite Hcheck, <- ColSpan_condition.
    destruct (PrimitiveCheck.intCheck value && PrimitiveCheck.range value 0 1000);
      [reflexivity | discriminate].
  - intros value. unfold invalid. rewrite Hcheck.
    destruct (PrimitiveCheck.intCheck value && PrimitiveCheck.range value 0 1000);
      [now left | right; eexists; reflexivity].
  - now rewrite Hcheck.
  - now rewrite Hcheck.
  - unfold invalid. rewrite Hcheck. eexists; reflexivity.
  - unfold invalid. rewrite Hcheck. eexists; reflexivity.
Qed.

(** C6.  For a spec of type [TabIndex], the accepted values are exactly
    the integers greater than or equal to -1; an integer below -1 is
    invalid with the "behaves the same as -1" message, anything that is
    not an integer is invalid with the "expects either" message.  So
    ["-1"], ["0"] and ["5"] are valid and ["-2"] gets the "behaves"
    message. *)
Theorem TabIndex_valid_iff_integer_from_minus_one
        (name : string) (isCustomRule : bool)
        (Hname : not_exempted name isCustomRule)
        (Hmsg : forall value,
            message_not_empty name value {| type := TypeName "TabIndex" |}) :
  let check value :=
    attrCheck name value isCustomRule (Some {| type := TypeName "TabIndex" |}) in
  let behaves :=
    Normal (Some {| invalidType := InvalidValue;
                    message :=
                      t "{0} behaves the same as {1} if {2}"
                        [Str (t the_quoted_template [Str name; Str "attribute"]);
                         Str "-1"; Str (t "less than {0}" [Str "-1"])] |}) in
  let expects :=
    Normal (Some {| invalidType := InvalidValue;
                    message :=
                      t "{0} expects {1:c}"
                        [Str (t the_quoted_template [Str name; Str "attribute"]);
                         Str (t "either {0}"
                                [Str (t_list ["-1"; "zero"; "non-negative integer"])])]
                 |}) in
  (forall value,
      check value = Normal None <->
      exists z, PrimitiveCheck.parse_integer value = Some z /\ (-1 <= z)%Z)
  /\ (forall value z,
         PrimitiveCheck.parse_integer value = Some z -> (z < -1)%Z ->
         check value = behaves)
  /\ (forall value,
         PrimitiveCheck.parse_integer value = None -> check value = expects)
  /\ check "-1" = Normal None
  /\ check "0" = Normal None
  /\ check "5" = Normal None
  /\ check "-2" = behaves.
Proof.
  intros check behaves expects.
  assert (Hcheck : forall value r,
             valueCheck name value {| type := TypeName "TabIndex" |} = Normal r ->
             check value =
             Normal (option_map
                       (fun msg => {| invalidType := InvalidValue; message := msg |})
                       r)).
  { intros value r Hr. unfold check.
    apply attrCheck_of_valueCheck; [exact Hname | apply Hmsg | exact Hr]. }
  assert (Hint : forall value z,
             PrimitiveCheck.parse_integer value = Some z ->
             check value = if (-1 <=? z)%Z then Normal None else behaves).
  { intros value z Hz. rewrite (Hcheck value _ (valueCheck_TabIndex name value)).
    cbv zeta. cbn [intCheck Reference.primitives]. unfold PrimitiveCheck.intCheck.
    rewrite Hz, (parseInt_integer value z Hz). cbn [num_le num_gt].
    destruct (-1 <=? z)%Z eqn:E; [reflexivity|].
    apply Z.leb_gt in E. apply Z.ltb_lt in E. now rewrite E. }
  assert (Hnot : forall value,
             PrimitiveCheck.parse_integer value = None -> check value = expects).
  { intros value Hz. rewrite (Hcheck value _ (valueCheck_TabIndex name value)).
    cbv zeta. cbn [intCheck Reference.primitives]. unfold PrimitiveCheck.intCheck.
    now rewrite Hz. }
  repeat split.
  - intros H. destruct (PrimitiveCheck.parse_integer value) as [z|] eqn:Hz.
    + exists z. split; [reflexivity|].
      rewrite (Hint value z Hz) in H.
      destruct (-1 <=? z)%Z eqn:E; [now apply Z.leb_le | discriminate H].
    + rewrite (Hnot value Hz) in H. discriminate H.
  - intros (z & Hz & Hle). rewrite (Hint value z Hz).
    apply Z.leb_le in Hle. now rewrite Hle.
  - intros value z Hz Hlt. rewrite (Hint value z Hz).
    apply Z.leb_gt in Hlt. now rewrite Hlt.
  - exact Hnot.
  - exact (Hint "-1" (-1)%Z eq_refl).
  - exact (Hint "0" 0%Z eq_refl).
  - exact (Hint "5" 5%Z eq_refl).
  - exact (Hint "-2" (-2)%Z eq_refl).
Qed.

(** C5, where the code departs from it.  For a spec of type
    [CSSOpacity], [valueCheck] looks at the unit only to tell ["%"] from
    everything else: a value with another unit, such as ["0.5px"], is
    checked against the range 0 to 1 like a bare number, and accepted. *)
Theorem CSSOpacity_accepts_a_foreign_unit (name : string) (isCustomRule : bool) :
  PrimitiveCheck.splitUnit "0.5px" = ("0.5", "px")
  /\ PrimitiveCheck.parse_number "0.5px" = None
  /\ valueCheck name "0.5px" {| type := TypeName "CSSOpacity" |} = Normal None
  /\ attrCheck name "0.5px" isCustomRule
               (Some {| type := TypeName "CSSOpacity" |}) = Normal None.
Proof.
  assert (Hv : valueCheck name "0.5px" {| type := TypeName "CSSOpacity" |} =
               Normal None) by reflexivity.
  repeat split; try reflexivity.
  unfold attrCheck. rewrite Hv. cbn [bind].
  destruct (negb isCustomRule); [|reflexivity].
  destruct (is_data_attribute name); [reflexivity|].
  now destruct (is_aria_or_role name).
Qed.

(** So for values whose unit is not ["%"], being accepted is not the same
    as being a bare number between 0 and 1. *)
Lemma CSSOpacity_not_only_bare_numbers (name : string) :
  ~ (forall value,
        snd (PrimitiveCheck.splitUnit value) <> "%" ->
        (valueCheck name value {| type := TypeName "CSSOpacity" |} = Normal None <->
         exists q, PrimitiveCheck.parse_number value = Some q
                   /\ (0 <= q)%Q /\ (q <= 1)%Q)).
Proof.
  intros H.
  destruct (proj1 (H "0.5px" ltac:(discriminate)) eq_refl) as (q & Hq & _).
  discriminate Hq.
Qed.

(** The examples of C5 come out as the claim says. *)
Lemma CSSOpacity_examples (name : string) :
  let check value := valueCheck name value {| type := TypeName "CSSOpacity" |} in
  check "50%" = Normal None
  /\ check "101%" <> Normal None
  /\ check "0.5" = Normal None
  /\ check "1.1" <> Normal None.
Proof. repeat split; try reflexivity; discriminate. Qed.

End Claims.

(** Witnesses, with the English translator. *)

Lemma ColSpan_valid_iff_integer_0_to_1000_witness :
  @attrCheck Reference.english Reference.primitives "colspan" "1000" false
             (Some {| type := TypeName "ColSpan" |}) = Normal None
  /\ exists msg,
      @attrCheck Reference.english Reference.primitives "colspan" "1001" false
                 (Some {| type := TypeName "ColSpan" |}) =
      Normal (Some {| invalidType := InvalidValue; message := msg |}).
Proof.
  assert (Hname : not_exempted "colspan" false) by (right; split; reflexivity).
  assert (Hmsg : forall value,
             @message_not_empty Reference.english Reference.primitives
                                "colspan" value {| type := TypeName "ColSpan" |}).
  { intros value msg H. rewrite valueCheck_ColSpan in H.
    destruct (intCheck value && range value 0 1000); inversion H. reflexivity. }
  destruct (@ColSpan_valid_iff_integer_0_to_1000
              Reference.english "colspan" false Hname Hmsg)
    as (_ & _ & H1000 & _ & H1001 & _).
  split; [exact H1000 | exact H1001].
Defined.

Lemma TabIndex_valid_iff_integer_from_minus_one_witness :
  @attrCheck Reference.english Reference.primitives "tabindex" "-1" false
             (Some {| type := TypeName "TabIndex" |}) = Normal None
  /\ @attrCheck Reference.english Reference.primitives "tabindex" "-2" false
                (Some {| type := TypeName "TabIndex" |}) =
     Normal (Some {| invalidType := InvalidValue;
                     message := String.append "the "
                                  (String.append dq
                                     (String.append "tabindex"
                                        (String.append dq
                                           " attribute behaves the same as -1 if less than -1")))
                  |}).
Proof.
  assert (Hname : not_exempted "tabindex" false) by (right; split; reflexivity).
  assert (Hmsg : forall value,
             @message_not_empty Reference.english Reference.primitives
                                "tabindex" value {| type := TypeName "TabIndex" |}).
  { intros value msg H. rewrite valueCheck_TabIndex in H. cbv zeta in H.
    destruct (intCheck value);
      [destruct (num_le (-1) (parseInt value));
       [|destruct (num_gt (-1) (parseInt value))]|];
      inversion H; reflexivity. }
  destruct (@TabIndex_valid_iff_integer_from_minus_one
              Reference.english "tabindex" false Hname Hmsg)
    as (_ & _ & _ & Hm1 & _ & _ & Hm2).
  split; [exact Hm1 | exact Hm2].
Defined.

End NumericTypes.

(* ================================================================== *)
(** ** Properties of the [class-naming] rule *)
(* ================================================================== *)

Module ClassNamingFacts.
Import I18n ClassNaming.
Local Open Scope string_scope.

Section Facts.
Context {translator : Translator}.
Variable toNoEmptyStringArrayFromStringOrArray : Value -> list string.
Variable match_ : string -> string -> bool.

(** Every report of a token has that token for scope, and the token is
    not dynamic. *)
Lemma verify_token_scope classPatterns attr r :
  In r (verify_token match_ classPatterns attr) ->
  scope r = attr /\ isDynamicValue attr = false.
Proof.
  unfold verify_token.
  destruct (isDynamicValue attr); [intros []|].
  intros H. apply in_flat_map in H as (className & _ & H).
  destruct (negb (existsb (fun pattern => match_ className pattern) classPatterns));
    [|destruct H].
  destruct H as [<- | []]. now split.
Qed.

Lemma verify_scope_static document r :
  In r (verify toNoEmptyStringArrayFromStringOrArray match_ document) ->
  isDynamicValue (scope r) = false.
Proof.
  unfold verify. intros H. apply in_flat_map in H as (el & _ & H).
  unfold verify_element in H.
  destruct (negb (truthy_value (rule_value el))); [destruct H|].
  apply in_flat_map in H as (attr & _ & H).
  apply verify_token_scope in H as [-> H]. exact H.
Qed.

(** C3.  A token of the [class] attribute whose value is dynamic is
    never reported by [verify], whatever its text: the loop passes over
    it, and no report of any document has it for scope. *)
Theorem dynamic_token_is_never_reported (attr : AttributeToken) :
  isDynamicValue attr = true ->
  (forall classPatterns, verify_token match_ classPatterns attr = [])
  /\ (forall document r,
         In r (verify toNoEmptyStringArrayFromStringOrArray match_ document) ->
         scope r <> attr).
Proof.
  intros Hdyn. split.
  - intros classPatterns. unfold verify_token. now rewrite Hdyn.
  - intros document r H E. apply verify_scope_static in H.
    rewrite E in H. congruence.
Qed.

End Facts.

Lemma dynamic_token_is_never_reported_witness :
  let dynamic :=
    {| isDynamicValue := true; value := "{cls} bar"; valueNode := None |} in
  let static :=
    {| isDynamicValue := false; value := "foo bar";
       valueNode := Some {| startLine := 1; startCol := 12; raw := "foo bar" |} |} in
  let document :=
    [{| rule_value := VString "foo"; class_tokens := [dynamic; static] |}] in
  let verify :=
    @verify Reference.english Reference.toNoEmptyStringArrayFromStringOrArray
            String.eqb in
  List.length (verify document) = 1%nat
  /\ (forall r, In r (verify document) -> scope r <> dynamic).
Proof.
  intros dynamic static document verify. split; [reflexivity|].
  apply (proj2 (@dynamic_token_is_never_reported
                  Reference.english Reference.toNoEmptyStringArrayFromStringOrArray
                  String.eqb dynamic eq_refl)).
Defined.

End ClassNamingFacts.

(* ================================================================== *)
(** ** Properties of the [no-empty-palpable-content] rule *)
(* ================================================================== *)

Module NoEmptyPalpableContentFacts.
Import I18n NoEmptyPalpableContent.
Local Open Scope string_scope.

Section Facts.
Context {translator : Translator}.
Variable isPalpableElement : Element -> PalpableOptions -> bool.
Variable isVoidElement : Element -> bool.

(** C10.  An element without child nodes counts as empty, [every] being
    true of an empty list; so a palpable element that is not void and has
    no children, unless [ignoreIfAriaBusy] is on and [aria-busy] is
    ["true"], gets exactly one report, with the message of the template
    ["{0} should not {1}"] filled with "the element" and "empty". *)
Theorem childless_palpable_element_is_reported (el : Element) :
  isPalpableElement el
    {| extendsSvg := false;
       palpable_extendsExposableElements :=
         extendsExposableElements (rule_option el) |} = true ->
  isVoidElement el = false ->
  truthy (ignoreIfAriaBusy (rule_option el))
  && is_string_true (getAttribute el "aria-busy") = false ->
  childNodes el = [] ->
  forallb is_white_space_text (childNodes el) = true
  /\ verify_element isPalpableElement isVoidElement el =
     [{| scope := el;
         message := t "{0} should not {1}"
                      [Str (t "the {0}" [Str "element"]); Str "empty"] |}]
  /\ verify isPalpableElement isVoidElement [el] =
     [{| scope := el;
         message := t "{0} should not {1}"
                      [Str (t "the {0}" [Str "element"]); Str "empty"] |}].
Proof.
  intros Hp Hv Hb Hc.
  assert (He : forallb is_white_space_text (childNodes el) = true)
    by now rewrite Hc.
  assert (H1 : verify_element isPalpableElement isVoidElement el =
               [{| scope := el;
                   message := t "{0} should not {1}"
                                [Str (t "the {0}" [Str "element"]); Str "empty"] |}]).
  { unfold verify_element. now rewrite Hp, Hv, Hb, He. }
  repeat split; [exact He | exact H1 |].
  unfold verify. cbn [flat_map]. rewrite H1. reflexivity.
Qed.

(** The two ways out of the check that the claim mentions. *)
Lemma busy_element_is_not_reported (el : Element) :
  truthy (ignoreIfAriaBusy (rule_option el))
  && is_string_true (getAttribute el "aria-busy") = true ->
  verify_element isPalpableElement isVoidElement el = [].
Proof.
  intros Hb. unfold verify_element. rewrite Hb.
  destruct (negb _); [reflexivity|]. now destruct (isVoidElement el).
Qed.

End Facts.

Lemma childless_palpable_element_is_reported_witness :
  let el :=
    {| tagName := "div";
       attributes := [("aria-busy", "false")];
       childNodes := [];
       rule_option := {| extendsExposableElements := Some true;
                         ignoreIfAriaBusy := Some true |} |} in
  @verify Reference.english
          (fun e _ => String.eqb (tagName e) "div")
          (fun e => String.eqb (tagName e) "br") [el] =
  [{| scope := el; message := "the element should not empty" |}].
Proof.
  intros el.
  apply (@childless_palpable_element_is_reported
           Reference.english
           (fun e _ => String.eqb (tagName e) "div")
           (fun e => String.eqb (tagName e) "br") el);
    reflexivity.
Defined.

End NoEmptyPalpableContentFacts.

(* ================================================================== *)
(** ** More on the dispatcher *)
(* ================================================================== *)

Module AttrCheckMore.
Import JS I18n AttrCheck.
Local Open Scope string_scope.





Section Verdicts.
Context {translator : Translator} {primitives : PrimitiveChecks}.

(** X1.  An [invalid-value] verdict has one origin: the name was not
    exempted, a spec was given, [valueCheck] complained about the value with
    exactly the message of the verdict, and that message is not empty. *)
Theorem invalid_value_has_a_complaint
        (name value msg : string) (isCustomRule : bool) (spec : option AttrSpec) :
  attrCheck name value isCustomRule spec =
  Normal (Some {| invalidType := InvalidValue; message := msg |}) ->
  not_exempted name isCustomRule
  /\ msg <> ""
  /\ exists sp, spec = Some sp /\ valueCheck name value sp = Normal (Some msg).
Proof.
  intros H.
  assert (Hrest :
            match spec with
            | None =>
                Normal (Some {| invalidType := NonExistent;
                                message := t "{0} is {1}"
                                             [Str (t the_quoted_template
                                                     [Str name; Str "attribute"]);
                                              Str "disallow"] |})
            | Some spec =>
                invalid <- valueCheck name value spec ;;
                match invalid with
                | Some msg =>
                    if truthy msg
                    then Normal (Some {| invalidType := InvalidValue; message := msg |})
                    else Normal None
                | None => Normal None
                end
            end = Normal (Some {| invalidType := InvalidValue; message := msg |}) ->
            msg <> ""
            /\ exists sp, spec = Some sp /\ valueCheck name value sp = Normal (Some msg)).
  { destruct spec as [sp|]; [|discriminate].
    destruct (valueCheck name value sp) as [[m|]|e] eqn:E; cbn [bind];
      try discriminate.
    destruct m as [|c m]; cbn [truthy]; [discriminate|].
    intros [= <-]. split; [discriminate|]. now exists sp. }
  unfold attrCheck in H. unfold not_exempted.
  destruct isCustomRule; cbn [negb] in H.
  - split; [now left | now apply Hrest].
  - destruct (is_data_attribute name); [discriminate|].
    destruct (is_aria_or_role name); [discriminate|].
    split; [right; now split | now apply Hrest].
Qed.

(** X2.  The flag [isCustomRule] matters for the exempted names only: on a
    name that matches neither pattern the verdict is the same with and
    without it. *)
Theorem custom_rule_flag_only_lifts_the_exemption
        (name value : string) (spec : option AttrSpec) :
  is_data_attribute name = false ->
  is_aria_or_role name = false ->
  attrCheck name value false spec = attrCheck name value true spec.
Proof.
  intros Hd Ha. unfold attrCheck. cbn [negb]. now rewrite Hd, Ha.
Qed.

(** X3.  A complaint the translator renders as the empty string is lost:
    [if (invalid)] takes it for [false] and the value passes as valid. *)
Theorem empty_message_hides_the_complaint
        (name value : string) (isCustomRule : bool) (spec : AttrSpec) :
  valueCheck name value spec = Normal (Some "") ->
  attrCheck name value isCustomRule (Some spec) = Normal None.
Proof.
  intros H. unfold attrCheck. rewrite H. cbn [bind truthy].
  destruct (negb isCustomRule); [|reflexivity].
  destruct (is_data_attribute name); [reflexivity|].
  now destruct (is_aria_or_role name).
Qed.


(** X5.  A type given as an object without an [enum] member is checked by
    no branch: every value is valid, and nothing is thrown. *)
Theorem object_type_without_enum_is_valid
        (name value : string) (isCustomRule : bool)
        (members : list (string * list string)) :
  get_enum (TypeObject members) = None ->
  valueCheck name value {| type := TypeObject members |} = Normal None
  /\ attrCheck name value isCustomRule (Some {| type := TypeObject members |}) =
     Normal None.
Proof.
  intros He.
  assert (E : existsb (fun m => fst m =? "enum") members = false).
  { destruct (existsb (fun m => fst m =? "enum") members) eqn:E; [|reflexivity].
    destruct (AttrCheckFacts.get_enum_some members E) as [ev Hev]. congruence. }
  assert (Hv : valueCheck name value {| type := TypeObject members |} = Normal None).
  { unfold valueCheck; cbn [type not_a_string js_in bind]. now rewrite E. }
  split; [exact Hv|].
  unfold attrCheck. rewrite Hv. cbn [bind].
  destruct (negb isCustomRule); [|reflexivity].
  destruct (is_data_attribute name); [reflexivity|].
  now destruct (is_aria_or_role name).
Qed.

(** X6.  [NonEmptyString] refuses the empty string and nothing else. *)
Theorem NonEmptyString_refuses_only_the_empty_string (name value : string) :
  valueCheck name value {| type := TypeName "NonEmptyString" |} = Normal None <->
  value <> "".
Proof.
  destruct value as [|c r].
  - split; [discriminate | congruence].
  - split; [discriminate | reflexivity].
Qed.

(** X7.  [URLHash] accepts exactly the values that begin with [#]; the
    empty string, which has no first character, is refused. *)
Theorem URLHash_accepts_a_leading_hash (name value : string) :
  valueCheck name value {| type := TypeName "URLHash" |} = Normal None <->
  exists rest, value = String "#" rest.
Proof.
  destruct value as [|c r].
  - split; [discriminate | intros [rest H]; discriminate].
  - destruct c as [[] [] [] [] [] [] [] []];
      (split; [intros H; first [discriminate H | eexists; reflexivity]
              | intros [rest H]; first [discriminate H | reflexivity]]).
Qed.

End Verdicts.

(** X8.  Whether [valueCheck] accepts a value depends on the value and the
    type alone: the attribute's name and the translator shape the message
    only. *)
Theorem validity_ignores_name_and_translator
        (translator1 translator2 : Translator) (primitives : PrimitiveChecks)
        (name1 name2 value : string) (spec : AttrSpec) :
  @valueCheck translator1 primitives name1 value spec = Normal None <->
  @valueCheck translator2 primitives name2 value spec = Normal None.
Proof.
  destruct spec as [[tag | members]].
  - unfold valueCheck, is_type; cbn [type not_a_string bind].
    repeat match goal with
           | |- (if ?b then _ else _) = _ <-> (if ?b then _ else _) = _ =>
               destruct b;
               [ solve [ unfold includesEnum; cbv zeta;
                         try destruct (splitUnit value) as [num unit];
                         repeat match goal with
                                | |- context [if ?c then _ else _] => destruct c
                                end;
                         split; intros H; first [reflexivity | discriminate H] ] | ]
           end.
    split; reflexivity.
  - unfold valueCheck; cbn [type not_a_string js_in bind].
    destruct (existsb (fun m => fst m =? "enum") members); [|split; reflexivity].
    unfold includesEnum.
    destruct (get_enum (TypeObject members)) as [ev|]; [|split; discriminate].
    cbv zeta. destruct (includes ev (toLowerCase value)); split; congruence.
Qed.

(** Witnesses. *)

Lemma invalid_value_has_a_complaint_witness :
  exists msg,
    not_exempted "colspan" false
    /\ msg <> ""
    /\ exists sp,
        Some {| type := TypeName "ColSpan" |} = Some sp
        /\ @valueCheck Reference.english Reference.primitives "colspan" "1001" sp =
           Normal (Some msg).
Proof.
  eexists.
  apply (@invalid_value_has_a_complaint Reference.english Reference.primitives
           "colspan" "1001" _ false (Some {| type := TypeName "ColSpan" |})).
  reflexivity.
Defined.

Lemma custom_rule_flag_only_lifts_the_exemption_witness :
  @attrCheck Reference.english Reference.primitives "href" "x" false None =
  @attrCheck Reference.english Reference.primitives "href" "x" true None.
Proof.
  apply (@custom_rule_flag_only_lifts_the_exemption
           Reference.english Reference.primitives "href" "x" None);
    reflexivity.
Defined.

Lemma empty_message_hides_the_complaint_witness :
  @attrCheck Fixtures.silent Reference.primitives "colspan" "1001" false
             (Some {| type := TypeName "ColSpan" |}) = Normal None.
Proof.
  apply (@empty_message_hides_the_complaint Fixtures.silent Reference.primitives
           "colspan" "1001" false {| type := TypeName "ColSpan" |}).
  reflexivity.
Defined.


Lemma object_type_without_enum_is_valid_witness :
  @attrCheck Reference.english Reference.primitives "x" "anything" false
             (Some {| type := TypeObject [("token", ["a"])] |}) = Normal None.
Proof.
  apply (@object_type_without_enum_is_valid Reference.english Reference.primitives
           "x" "anything" false [("token", ["a"])]).
  reflexivity.
Defined.

End AttrCheckMore.

(* ================================================================== *)
(** ** More on the integer types, with the checkers of [PrimitiveCheck] *)
(* ================================================================== *)

Module IntegerTypes.
Import JS I18n AttrCheck PrimitiveCheckFacts.
Local Open Scope string_scope.

#[local] Existing Instance Reference.primitives.

Lemma int_range_condition (value : string) (lo hi : Z) :
  PrimitiveCheck.intCheck value
  && PrimitiveCheck.range value (inject_Z lo) (inject_Z hi) = true <->
  exists z, PrimitiveCheck.parse_integer value = Some z /\ (lo <= z <= hi)%Z.
Proof.
  rewrite andb_true_iff, intCheck_iff. split.
  - intros [[z Hz] Hr]. exists z. split; [exact Hz|].
    rewrite (range_integer value z lo hi Hz) in Hr.
    apply andb_prop in Hr as [H1 H2]. apply Z.leb_le in H1, H2. lia.
  - intros (z & Hz & Hlo & Hhi). split; [now exists z|].
    rewrite (range_integer value z lo hi Hz).
    apply andb_true_intro; split; now apply Z.leb_le.
Qed.

Section Types.
Context {translator : Translator}.

(** Each integer type, by the integers it accepts. *)
Lemma integer_type_condition (name value : string) :
  let valid tag := valueCheck name value {| type := TypeName tag |} = Normal None in
  let integer (P : Z -> Prop) :=
    exists z, PrimitiveCheck.parse_integer value = Some z /\ P z in
  (valid "Int" <-> integer (fun _ => True))
  /\ (valid "Uint" <-> integer (fun z => 0 <= z)%Z)
  /\ (valid "NonZeroUint" <-> integer (fun z => 0 < z)%Z)
  /\ (valid "TabIndex" <-> integer (fun z => -1 <= z)%Z)
  /\ (valid "ColSpan" <-> integer (fun z => 0 <= z <= 1000)%Z)
  /\ (valid "RowSpan" <-> integer (fun z => 0 <= z <= 65534)%Z).
Proof.
  intros valid integer. unfold valid, integer.
  assert (Hrow : valueCheck name value {| type := TypeName "RowSpan" |} = Normal None <->
                 PrimitiveCheck.intCheck value
                 && PrimitiveCheck.range value (inject_Z 0) (inject_Z 65534) = true).
  { change (valueCheck name value {| type := TypeName "RowSpan" |})
      with (Normal
              (if PrimitiveCheck.intCheck value
                  && PrimitiveCheck.range value (inject_Z 0) (inject_Z 65534)
               then None
               else Some (t "{0} expects {1:c}"
                            [Str (t the_quoted_template [Str name; Str "attribute"]);
                             Str (t "{0:c} and {1:c}"
                                    [Str (t "{0} greater than {1}"
                                            [Str "non-negative integer"; Str "zero"]);
                                     Str (t "less than or equal to {0}"
                                            [Num 65534])])]))).
    destruct (PrimitiveCheck.intCheck value
              && PrimitiveCheck.range value (inject_Z 0) (inject_Z 65534));
      split; congruence. }
  split; [|split; [|split; [|split; [|split]]]].
  - change (valueCheck name value {| type := TypeName "Int" |})
      with (Normal (if PrimitiveCheck.intCheck value then None
                    else Some (t "{0} expects {1}"
                                 [Str (t the_quoted_template [Str name; Str "attribute"]);
                                  Str "integer"]))).
    unfold PrimitiveCheck.intCheck.
    destruct (PrimitiveCheck.parse_integer value) as [z|]; split;
      try discriminate.
    + intros _. now exists z.
    + reflexivity.
    + intros (z & H & _); discriminate.
  - change (valueCheck name value {| type := TypeName "Uint" |})
      with (Normal (if PrimitiveCheck.uintCheck value then None
                    else Some (t "{0} expects {1}"
                                 [Str (t the_quoted_template [Str name; Str "attribute"]);
                                  Str "non-negative integer"]))).
    unfold PrimitiveCheck.uintCheck.
    destruct (PrimitiveCheck.parse_integer value) as [z|].
    + destruct (0 <=? z)%Z eqn:E; split; try discriminate; try reflexivity.
      * intros _. exists z. split; [reflexivity | now apply Z.leb_le].
      * intros (z' & [= <-] & H). apply Z.leb_le in H. congruence.
    + split; [discriminate | intros (z & H & _); discriminate].
  - change (valueCheck name value {| type := TypeName "NonZeroUint" |})
      with (Normal (if PrimitiveCheck.nonZeroUintCheck value then None
                    else Some (t "{0} expects {1}"
                                 [Str (t the_quoted_template [Str name; Str "attribute"]);
                                  Str (t "{0} greater than {1}"
                                         [Str "floating-point number"; Str "zero"])]))).
    unfold PrimitiveCheck.nonZeroUintCheck.
    destruct (PrimitiveCheck.parse_integer value) as [z|].
    + destruct (0 <? z)%Z eqn:E; split; try discriminate; try reflexivity.
      * intros _. exists z. split; [reflexivity | now apply Z.ltb_lt].
      * intros (z' & [= <-] & H). apply Z.ltb_lt in H. congruence.
    + split; [discriminate | intros (z & H & _); discriminate].
  - rewrite NumericTypes.TabIndex_dispatch. cbn [intCheck Reference.primitives].
    unfold PrimitiveCheck.intCheck.
    destruct (PrimitiveCheck.parse_integer value) as [z|] eqn:Hz.
    + rewrite (parseInt_integer value z Hz). cbn [andb num_le].
      rewrite Z.leb_le. split.
      * intros H. now exists z.
      * now intros (z' & [= <-] & H).
    + split; [discriminate | intros (z & H & _); discriminate].
  - rewrite NumericTypes.ColSpan_dispatch. apply NumericTypes.ColSpan_condition.
  - rewrite Hrow. apply int_range_condition.
Qed.

(** X9.  For a spec of type [RowSpan], [valueCheck] accepts exactly the
    integers from 0 to 65534: ["65534"] is valid and ["65535"] is not. *)
Theorem RowSpan_accepts_integers_0_to_65534 (name : string) :
  let valid value :=
    valueCheck name value {| type := TypeName "RowSpan" |} = Normal None in
  (forall value,
      valid value <->
      exists z, PrimitiveCheck.parse_integer value = Some z /\ (0 <= z <= 65534)%Z)
  /\ valid "65534" /\ ~ valid "65535" /\ valid "0" /\ ~ valid "-1".
Proof.
  intros valid.
  split; [|split; [|split; [|split]]]; try reflexivity; try discriminate.
  intros value. apply (integer_type_condition name value).
Qed.

(** X10.  The integer types nest: what [ColSpan] accepts [RowSpan] accepts,
    what [RowSpan] or [NonZeroUint] accepts [Uint] accepts, what [Uint]
    accepts [TabIndex] accepts, and what [TabIndex] accepts [Int] accepts. *)
Theorem integer_types_nest (name value : string) :
  let valid tag := valueCheck name value {| type := TypeName tag |} = Normal None in
  (valid "ColSpan" -> valid "RowSpan")
  /\ (valid "RowSpan" -> valid "Uint")
  /\ (valid "NonZeroUint" -> valid "Uint")
  /\ (valid "Uint" -> valid "TabIndex")
  /\ (valid "TabIndex" -> valid "Int").
Proof.
  intros valid.
  destruct (integer_type_condition name value)
    as (Hint & Huint & Hnz & Htab & Hcol & Hrow).
  unfold valid.
  split; [|split; [|split; [|split]]]; intros H.
  - apply Hrow. apply Hcol in H as (z & Hz & Hb). exists z. split; [exact Hz | lia].
  - apply Huint. apply Hrow in H as (z & Hz & Hb). exists z. split; [exact Hz | lia].
  - apply Huint. apply Hnz in H as (z & Hz & Hb). exists z. split; [exact Hz | lia].
  - apply Htab. apply Huint in H as (z & Hz & Hb). exists z. split; [exact Hz | lia].
  - apply Hint. apply Htab in H as (z & Hz & Hb). exists z. split; [exact Hz | exact I].
Qed.

End Types.

Lemma integer_types_nest_witness :
  @valueCheck Reference.english Reference.primitives "rowspan" "1000"
              {| type := TypeName "RowSpan" |} = Normal None.
Proof.
  apply (proj1 (@integer_types_nest Reference.english "rowspan" "1000")).
  reflexivity.
Defined.

End IntegerTypes.

(* ================================================================== *)
(** ** More on the [no-empty-palpable-content] rule *)
(* ================================================================== *)

Module NoEmptyPalpableContentMore.
Import I18n NoEmptyPalpableContent.
Local Open Scope string_scope.

Section Facts.
Context {translator : Translator}.
Variable isPalpableElement : Element -> PalpableOptions -> bool.
Variable isVoidElement : Element -> bool.

(** X11.  The reports of a document are its offending elements, each once
    and in document order: the palpable elements that are not void, not
    passed over as busy, and whose children are all white-space text. *)
Theorem reports_are_the_empty_palpable_elements (document : list Element) :
  map scope (verify isPalpableElement isVoidElement document) =
  filter (fun el =>
            isPalpableElement el
              {| extendsSvg := false;
                 palpable_extendsExposableElements :=
                   extendsExposableElements (rule_option el) |}
            && negb (isVoidElement el)
            && negb (truthy (ignoreIfAriaBusy (rule_option el))
                     && is_string_true (getAttribute el "aria-busy"))
            && forallb is_white_space_text (childNodes el))
         document.
Proof.
  unfold verify. induction document as [|el rest IH]; [reflexivity|].
  cbn [flat_map filter]. rewrite map_app, IH. unfold verify_element.
  destruct (isPalpableElement el _); cbn [negb andb]; [|reflexivity].
  destruct (isVoidElement el); cbn [negb andb]; [reflexivity|].
  destruct (truthy (ignoreIfAriaBusy (rule_option el))
            && is_string_true (getAttribute el "aria-busy"));
    cbn [negb andb]; [reflexivity|].
  destruct (forallb is_white_space_text (childNodes el)); reflexivity.
Qed.

(** X12.  One child that is not white-space text (an element, a comment,
    text with a visible character) is enough for the element not to be
    reported, whatever else holds of it. *)
Theorem element_with_content_is_not_reported (el : Element) (node : Node) :
  In node (childNodes el) ->
  is_white_space_text node = false ->
  verify_element isPalpableElement isVoidElement el = [].
Proof.
  intros Hin Hnode.
  assert (He : forallb is_white_space_text (childNodes el) = false).
  { destruct (forallb is_white_space_text (childNodes el)) eqn:E; [|reflexivity].
    rewrite forallb_forall in E. specialize (E node Hin). congruence. }
  unfold verify_element. rewrite He.
  destruct (negb _); [reflexivity|].
  destruct (isVoidElement el); [reflexivity|].
  now destruct (truthy _ && is_string_true _).
Qed.

(** X13.  An empty palpable element escapes the report in one way only:
    the option [ignoreIfAriaBusy] is [true] and its first [aria-busy]
    attribute is exactly ["true"]. *)
Theorem only_aria_busy_true_suppresses (el : Element) :
  isPalpableElement el
    {| extendsSvg := false;
       palpable_extendsExposableElements :=
         extendsExposableElements (rule_option el) |} = true ->
  isVoidElement el = false ->
  forallb is_white_space_text (childNodes el) = true ->
  (verify_element isPalpableElement isVoidElement el = [] <->
   ignoreIfAriaBusy (rule_option el) = Some true
   /\ getAttribute el "aria-busy" = Some "true").
Proof.
  intros Hp Hv He. unfold verify_element. rewrite Hp, Hv, He. cbn [negb].
  destruct (ignoreIfAriaBusy (rule_option el)) as [[|]|]; cbn [truthy andb].
  - destruct (getAttribute el "aria-busy") as [s|]; cbn [is_string_true].
    + destruct (String.eqb_spec s "true") as [-> | Hne].
      * split; [now split | reflexivity].
      * split; [discriminate | intros [_ [= E]]; contradiction].
    + split; [discriminate | intros [_ H]; discriminate].
  - split; [discriminate | intros [H _]; discriminate].
  - split; [discriminate | intros [H _]; discriminate].
Qed.

End Facts.

Lemma element_with_content_is_not_reported_witness :
  let el :=
    {| tagName := "p";
       attributes := [];
       childNodes := [TextNode true; OtherNode];
       rule_option := {| extendsExposableElements := None;
                         ignoreIfAriaBusy := None |} |} in
  @verify_element Reference.english (fun _ _ => true) (fun _ => false) el = [].
Proof.
  intros el.
  apply (@element_with_content_is_not_reported
           Reference.english (fun _ _ => true) (fun _ => false) el OtherNode).
  - right. left. reflexivity.
  - reflexivity.
Defined.

Lemma only_aria_busy_true_suppresses_witness :
  let el :=
    {| tagName := "div";
       attributes := [("aria-busy", "TRUE")];
       childNodes := [TextNode true];
       rule_option := {| extendsExposableElements := Some true;
                         ignoreIfAriaBusy := Some true |} |} in
  @verify_element Reference.english (fun _ _ => true) (fun _ => false) el <> [].
Proof.
  intros el H.
  apply (@only_aria_busy_true_suppresses
           Reference.english (fun _ _ => true) (fun _ => false) el
           eq_refl eq_refl eq_refl) in H.
  destruct H as [_ H]. discriminate H.
Defined.

End NoEmptyPalpableContentMore.

(* ================================================================== *)
(** ** More on the [class-naming] rule *)
(* ================================================================== *)

Module ClassNamingMore.
Import JS I18n ClassNaming.
Local Open Scope string_scope.

Lemma flat_map_nil_iff {A B} (f : A -> list B) (l : list A) :
  flat_map f l = [] <-> forall x, In x l -> f x = [].
Proof.
  induction l as [|a l IH]; simpl.
  - split; [intros _ x [] | reflexivity].
  - split.
    + intros H. apply app_eq_nil in H as [Ha Hl].
      intros x [<- | Hx]; [exact Ha | now apply IH].
    + intros H. rewrite (H a (or_introl eq_refl)).
      apply IH. intros x Hx. apply H. now right.
Qed.

Lemma flat_map_singletons_length {A B} (p : A -> bool) (g : A -> B) (l : list A) :
  List.length (flat_map (fun x => if p x then [g x] else []) l) =
  List.length (filter p l).
Proof.
  induction l as [|a l IH]; simpl; [reflexivity|].
  destruct (p a); simpl; now rewrite IH.
Qed.

(** A one-byte white space character is one whatever follows it. *)
Lemma white_space_len_one_byte (c : ascii) (r : string) :
  white_space_len (String c EmptyString) = 1%nat ->
  white_space_len (String c r) = 1%nat.
Proof.
  destruct c as [[] [] [] [] [] [] [] []]; intros H;
    first [discriminate H | reflexivity].
Qed.

Lemma split_go_blank (s : string) (in_sep : bool) :
  (forall c, In c (list_ascii_of_string s) ->
             white_space_len (String c EmptyString) = 1%nat) ->
  forall piece, In piece (split_go s 0 in_sep EmptyString) -> piece = EmptyString.
Proof.
  revert in_sep. induction s as [|c r IH]; intros in_sep H piece Hin.
  - destruct Hin as [<- | []]. reflexivity.
  - cbn [split_go] in Hin.
    rewrite (white_space_len_one_byte c r (H c (or_introl eq_refl))) in Hin.
    assert (Hr : forall c', In c' (list_ascii_of_string r) ->
                            white_space_len (String c' EmptyString) = 1%nat).
    { intros c' Hc'. apply H. now right. }
    destruct in_sep.
    + now apply (IH true Hr).
    + destruct Hin as [<- | Hin]; [reflexivity | now apply (IH true Hr)].
Qed.

Section Facts.
Context {translator : Translator}.
Variable toNoEmptyStringArrayFromStringOrArray : Value -> list string.
Variable match_ : string -> string -> bool.

(** X14.  A static token goes unreported exactly when each of its class
    names matches at least one pattern. *)
Theorem static_token_is_silent_iff_every_class_matches
        (classPatterns : list string) (attr : AttributeToken) :
  isDynamicValue attr = false ->
  (verify_token match_ classPatterns attr = [] <->
   forall className,
     In className (filter truthy (map trim (split_white_space (value attr)))) ->
     exists pattern, In pattern classPatterns /\ match_ className pattern = true).
Proof.
  intros Hs. unfold verify_token. rewrite Hs. cbv zeta.
  rewrite flat_map_nil_iff. split.
  - intros H className Hin. specialize (H className Hin).
    destruct (existsb (fun pattern => match_ className pattern) classPatterns) eqn:E;
      [|discriminate H].
    now apply existsb_exists in E.
  - intros H className Hin. destruct (H className Hin) as (pattern & Hp & Hm).
    assert (E : existsb (fun pattern => match_ className pattern) classPatterns = true)
      by (apply existsb_exists; now exists pattern).
    now rewrite E.
Qed.

(** X15.  A static token gets one report for each class name, repeated
    ones included, that matches no pattern; with no pattern at all, one for
    each class name. *)
Theorem one_report_for_each_unmatched_class
        (classPatterns : list string) (attr : AttributeToken) :
  isDynamicValue attr = false ->
  List.length (verify_token match_ classPatterns attr) =
  List.length
    (filter (fun className =>
               negb (existsb (fun pattern => match_ className pattern) classPatterns))
            (filter truthy (map trim (split_white_space (value attr)))))
  /\ List.length (verify_token match_ [] attr) =
     List.length (filter truthy (map trim (split_white_space (value attr)))).
Proof.
  intros Hs. unfold verify_token. rewrite Hs. cbv zeta.
  rewrite !flat_map_singletons_length. split; [reflexivity|].
  cbn [existsb negb]. f_equal.
  induction (filter truthy (map trim (split_white_space (value attr)))) as [|a l IH];
    [reflexivity | cbn [filter]; now rewrite IH].
Qed.

(** X16.  Every report of a token is placed at the token's value node:
    its line, column and raw text, or nothing when the token has no value
    node. *)
Theorem report_is_placed_at_the_value_node
        (classPatterns : list string) (attr : AttributeToken) (r : Report) :
  In r (verify_token match_ classPatterns attr) ->
  scope r = attr
  /\ line r = option_map startLine (valueNode attr)
  /\ col r = option_map startCol (valueNode attr)
  /\ report_raw r = option_map raw (valueNode attr).
Proof.
  unfold verify_token.
  destruct (isDynamicValue attr); [intros []|].
  intros H. apply in_flat_map in H as (className & _ & H).
  destruct (negb (existsb (fun pattern => match_ className pattern) classPatterns));
    [|destruct H].
  destruct H as [<- | []]. repeat split.
Qed.

(** X17.  A [class] value that is empty or made of one-byte white space
    only (spaces, tabs, line breaks) holds no class name: the token is not
    reported, whatever the patterns. *)
Theorem blank_class_value_is_not_reported
        (classPatterns : list string) (attr : AttributeToken) :
  (forall c, In c (list_ascii_of_string (value attr)) ->
             white_space_len (String c EmptyString) = 1%nat) ->
  verify_token match_ classPatterns attr = [].
Proof.
  intros H. unfold verify_token.
  destruct (isDynamicValue attr); [reflexivity|]. cbv zeta.
  assert (E : filter truthy (map trim (split_white_space (value attr))) = []).
  { unfold split_white_space.
    assert (Hp := split_go_blank (value attr) false H).
    induction (split_go (value attr) 0 false EmptyString) as [|p l IH];
      [reflexivity|].
    cbn [map filter]. rewrite (Hp p (or_introl eq_refl)). cbn.
    apply IH. intros piece Hin. apply Hp. now right. }
  now rewrite E.
Qed.

End Facts.

Lemma static_token_is_silent_iff_every_class_matches_witness :
  @verify_token Reference.english String.eqb ["foo"; "bar"]
                {| isDynamicValue := false; value := "foo  bar foo";
                   valueNode := None |} = [].
Proof.
  apply (@static_token_is_silent_iff_every_class_matches
           Reference.english String.eqb ["foo"; "bar"]
           {| isDynamicValue := false; value := "foo  bar foo"; valueNode := None |}
           eq_refl).
  intros className Hin. cbn in Hin.
  destruct Hin as [<- | [<- | [<- | []]]].
  - exists "foo". split; [now left | reflexivity].
  - exists "bar". split; [right; now left | reflexivity].
  - exists "foo". split; [now left | reflexivity].
Defined.

Lemma one_report_for_each_unmatched_class_witness :
  List.length
    (@verify_token Reference.english String.eqb []
                   {| isDynamicValue := false; value := "a b a";
                      valueNode := None |}) = 3%nat.
Proof.
  exact (proj2 (@one_report_for_each_unmatched_class
                  Reference.english String.eqb []
                  {| isDynamicValue := false; value := "a b a"; valueNode := None |}
                  eq_refl)).
Defined.

Lemma report_is_placed_at_the_value_node_witness :
  let attr :=
    {| isDynamicValue := false; value := "x";
       valueNode := Some {| startLine := 3; startCol := 8; raw := "x" |} |} in
  exists r,
    In r (@verify_token Reference.english String.eqb ["y"] attr)
    /\ line r = Some 3%Z.
Proof.
  intros attr. eexists. split; [cbn; left; reflexivity|].
  refine (proj1 (proj2 (@report_is_placed_at_the_value_node
                          Reference.english String.eqb ["y"] attr _ _))).
  cbn. left. reflexivity.
Defined.

Lemma blank_class_value_is_not_reported_witness :
  @verify_token Reference.english String.eqb []
                {| isDynamicValue := false; value := "   "; valueNode := None |} = [].
Proof.
  apply (@blank_class_value_is_not_reported Reference.english String.eqb []).
  intros c Hin. cbn in Hin.
  destruct Hin as [<- | [<- | [<- | []]]]; reflexivity.
Defined.

End ClassNamingMore.

(* ================================================================== *)
(** ** Properties of the rule pages *)
(* ================================================================== *)

Module RuleDocsFacts.
Import JS RuleDocs.
Local Open Scope string_scope.
Local Open Scope list_scope.

Lemma same_lang_iff (a b : option string) : same_lang a b = true <-> a = b.
Proof.
  destruct a as [x|], b as [y|]; simpl; split; try discriminate; try reflexivity.
  - intros H. apply String.eqb_eq in H. now subst.
  - intros [= ->]. apply String.eqb_refl.
Qed.

Lemma same_lang_false (a b : option string) : same_lang a b = false <-> a <> b.
Proof.
  rewrite <- same_lang_iff. destruct (same_lang a b); split; congruence.
Qed.

Lemma all_lower_letters_no_dot (l : string) :
  all_lower_letters l = true -> forall c r, l = String c r -> is_lower_letter c = true.
Proof.
  intros H c r ->. simpl in H. now apply andb_prop in H as [H _].
Qed.

(** Pushing under one of the five keys adds the entry at the end of that
    key's list and leaves the others as they are. *)
Lemma push_entry_normal (category : string) (entry : Entry) (c pushed : RuleIndexContents) :
  push_entry category entry c = Normal pushed ->
  is_category category = true
  /\ forall key,
      entries_of key pushed =
      entries_of key c ++ (if category =? key then [entry] else []).
Proof.
  unfold push_entry, is_category.
  destruct (String.eqb_spec category "validation") as [-> | H1];
    [| destruct (String.eqb_spec category "a11y") as [-> | H2];
       [| destruct (String.eqb_spec category "naming-convention") as [-> | H3];
          [| destruct (String.eqb_spec category "maintainability") as [-> | H4];
             [| destruct (String.eqb_spec category "style") as [-> | H5];
                [| discriminate ]]]]];
    intros [= <-]; (split; [reflexivity|]); intros key; unfold entries_of;
      cbn [validation a11y naming_convention maintainability style];
      rewrite (String.eqb_sym _ key);
      repeat match goal with
             | |- context [key =? ?k] =>
                 destruct (String.eqb_spec key k) as [-> | ?]; cbn
             end;
      rewrite ?app_nil_r; reflexivity.
Qed.

Lemma push_entry_throw (category : string) (entry : Entry) (c : RuleIndexContents)
      (e : string) :
  push_entry category entry c = Throw e -> is_category category = false.
Proof.
  unfold push_entry, is_category.
  destruct (category =? "validation"); [discriminate|].
  destruct (category =? "a11y"); [discriminate|].
  destruct (category =? "naming-convention"); [discriminate|].
  destruct (category =? "maintainability"); [discriminate|].
  destruct (category =? "style"); [discriminate|]. reflexivity.
Qed.

Lemma entries_of_empty (key : string) : entries_of key createIndexContents = [].
Proof.
  unfold entries_of, createIndexContents; cbn.
  repeat match goal with
         | |- context [if ?b then _ else _] => destruct b
         end; reflexivity.
Qed.

Lemma update_found_langs (l : option string) (u : RuleIndex) (indexes : list RuleIndex) :
  index_lang u = l ->
  map index_lang (update_found l u indexes) = map index_lang indexes.
Proof.
  intros Hu. induction indexes as [|idx rest IH]; [reflexivity|].
  cbn [update_found]. destruct (same_lang (index_lang idx) l) eqn:E.
  - apply same_lang_iff in E. cbn [map]. congruence.
  - cbn [map]. now rewrite IH.
Qed.

Lemma update_found_in (l : option string) (u x : RuleIndex) (indexes : list RuleIndex) :
  NoDup (map index_lang indexes) ->
  In x (update_found l u indexes) ->
  x = u \/ (In x indexes /\ index_lang x <> l).
Proof.
  induction indexes as [|idx rest IH]; intros Hnd Hin; [destruct Hin|].
  cbn [update_found] in Hin. cbn [map] in Hnd. apply NoDup_cons_iff in Hnd as [Hni Hnd].
  destruct (same_lang (index_lang idx) l) eqn:E.
  - apply same_lang_iff in E. destruct Hin as [<- | Hin]; [now left|].
    right. split; [now right|]. intros Hx. apply Hni. rewrite E, <- Hx.
    now apply in_map.
  - apply same_lang_false in E. destruct Hin as [<- | Hin].
    + right. split; [now left | exact E].
    + destruct (IH Hnd Hin) as [-> | [Hx Hl]]; [now left|].
      right. split; [now right | exact Hl].
Qed.

Lemma NoDup_snoc {A} (l : list A) (a : A) :
  NoDup l -> ~ In a l -> NoDup (l ++ [a]).
Proof.
  intros Hl Ha. apply NoDup_app; [exact Hl | repeat constructor; intros [] |].
  intros x Hx [<- | []]. contradiction.
Qed.

Lemma filter_snoc {A} (f : A -> bool) (l : list A) (a : A) :
  filter f (l ++ [a]) = filter f l ++ (if f a then [a] else []).
Proof. rewrite filter_app. reflexivity. Qed.

Lemma filter_none {A} (f : A -> bool) (l : list A) :
  (forall x, In x l -> f x = false) -> filter f l = [].
Proof.
  induction l as [|a l IH]; intros H; [reflexivity|].
  cbn [filter]. rewrite (H a (or_introl eq_refl)). apply IH.
  intros x Hx. apply H. now right.
Qed.

Lemma consistent_nil : consistent [] [].
Proof.
  split; [constructor | split].
  - intros idx key [].
  - intros l. cbn. tauto.
Qed.

(** One turn of the loop keeps the indexes consistent with the pages gone
    through. *)
Lemma step_consistent (seen : list Doc) (indexes : list RuleIndex) (doc : Doc)
      (pushed : RuleIndexContents) :
  consistent seen indexes ->
  let found := find (fun idx => same_lang (index_lang idx) (lang doc)) indexes in
  let index :=
    match found with
    | Some idx => idx
    | None => {| index_lang := lang doc; index_contents := createIndexContents |}
    end in
  push_entry (category doc) (entry_of doc) (index_contents index) = Normal pushed ->
  consistent (seen ++ [doc])
    (match found with
     | Some _ => update_found (lang doc)
                   {| index_lang := index_lang index; index_contents := pushed |} indexes
     | None => indexes ++ [{| index_lang := index_lang index; index_contents := pushed |}]
     end).
Proof.
  intros (Hnd & Hentries & Hlangs) found index Hpush.
  apply push_entry_normal in Hpush as [_ Hpush].
  subst index. destruct found as [idx0|] eqn:Hfound; subst found.
  - apply find_some in Hfound as [Hin0 Hl0]. apply same_lang_iff in Hl0.
    set (u := {| index_lang := index_lang idx0; index_contents := pushed |}) in *.
    assert (Hu : index_lang u = lang doc) by exact Hl0.
    split; [|split].
    + now rewrite (update_found_langs (lang doc) u indexes Hu).
    + intros x key Hx. rewrite filter_snoc, map_app.
      destruct (update_found_in (lang doc) u x indexes Hnd Hx) as [-> | [Hxin Hxl]].
      * cbn [index_contents index_lang u]. rewrite Hpush, (Hentries idx0 key Hin0).
        rewrite Hl0, (proj2 (same_lang_iff (lang doc) (lang doc)) eq_refl).
        cbn [andb]. now destruct (category doc =? key).
      * rewrite (Hentries x key Hxin).
        assert (E : same_lang (lang doc) (index_lang x) = false)
          by (apply same_lang_false; congruence).
        rewrite E. cbn [andb map]. now rewrite app_nil_r.
    + intros l. rewrite (update_found_langs (lang doc) u indexes Hu).
      rewrite map_app, in_app_iff, Hlangs. cbn [map In]. split; [tauto|].
      intros [H | [<- | []]]; [exact H|].
      apply Hlangs. rewrite <- Hl0. now apply in_map.
  - assert (Hnone := find_none _ _ Hfound).
    cbn [index_lang index_contents] in *.
    set (u := {| index_lang := lang doc; index_contents := pushed |}).
    assert (Hnew : ~ In (lang doc) (map index_lang indexes)).
    { intros H. apply in_map_iff in H as (x & Hx & Hxin).
      specialize (Hnone x Hxin). cbn in Hnone.
      apply same_lang_false in Hnone. congruence. }
    split; [|split].
    + rewrite map_app. cbn [map]. now apply NoDup_snoc.
    + intros x key Hx. rewrite filter_snoc, map_app.
      apply in_app_or in Hx as [Hxin | [<- | []]].
      * rewrite (Hentries x key Hxin).
        assert (E : same_lang (lang doc) (index_lang x) = false).
        { apply same_lang_false. intros H. apply Hnew. rewrite H. now apply in_map. }
        rewrite E. cbn [andb map]. now rewrite app_nil_r.
      * cbn [index_contents index_lang u]. rewrite Hpush, entries_of_empty.
        rewrite filter_none.
        -- rewrite (proj2 (same_lang_iff (lang doc) (lang doc)) eq_refl).
           cbn [andb map app]. now destruct (category doc =? key).
        -- intros d Hd.
           assert (E : same_lang (lang d) (lang doc) = false).
           { apply same_lang_false. intros H. apply Hnew. apply Hlangs.
             rewrite <- H. now apply in_map. }
           now rewrite E.
    + intros l. rewrite !map_app, !in_app_iff, Hlangs. cbn [map In index_lang u].
      tauto.
Qed.

Section Build.
Variable resolve : list string -> string.
Variable replace : string -> string -> string -> string.
Variable createRuleDoc : string -> list Doc.
Variable ruleDocsDistDir ruleDocsI18nDistDir : string.

Lemma each_doc_outcome (docs seen : list Doc) (indexes : list RuleIndex)
      (log : list Action) :
  consistent seen indexes ->
  outcome resolve replace ruleDocsDistDir ruleDocsI18nDistDir docs seen log
          (each_doc resolve replace ruleDocsDistDir ruleDocsI18nDistDir docs indexes log).
Proof.
  revert seen indexes log. induction docs as [|doc rest IH]; intros seen indexes log Hc.
  - unfold outcome. cbn [each_doc forallb map]. rewrite !app_nil_r.
    split; [reflexivity | split; [exact Hc | reflexivity]].
  - cbn [each_doc].
    destruct (push_entry (category doc) (entry_of doc) _) as [pushed | e] eqn:Hpush.
    + assert (Hcat := proj1 (push_entry_normal _ _ _ _ Hpush)).
      assert (Hstep := step_consistent seen indexes doc pushed Hc Hpush).
      cbv zeta in Hstep. specialize (IH _ _ (log ++ [Output
        (dist_of resolve replace ruleDocsDistDir ruleDocsI18nDistDir doc)
        (contents doc)]) Hstep).
      unfold outcome in *.
      destruct (each_doc resolve replace ruleDocsDistDir ruleDocsI18nDistDir rest _ _)
        as [[indexes' | e] log'].
      * destruct IH as (Hall & Hcons & Hlog). cbn [forallb map].
        rewrite Hcat, Hall. rewrite <- app_assoc in Hcons, Hlog.
        split; [reflexivity | split; [exact Hcons | exact Hlog]].
      * destruct IH as (good & bad & rest' & -> & Hall & Hbad & Hlog).
        exists (doc :: good), bad, rest'. cbn [forallb map].
        rewrite Hcat, Hall. rewrite <- app_assoc in Hlog.
        split; [reflexivity | split; [reflexivity | split; [exact Hbad | exact Hlog]]].
    + apply push_entry_throw in Hpush. unfold outcome.
      exists [], doc, rest. cbn [forallb map app]. rewrite app_nil_r.
      split; [reflexivity | split; [reflexivity | split; [exact Hpush | reflexivity]]].
Qed.

Lemma each_path_outcome (paths : list string) (seen : list Doc)
      (indexes : list RuleIndex) (log : list Action) :
  consistent seen indexes ->
  outcome resolve replace ruleDocsDistDir ruleDocsI18nDistDir
          (flat_map createRuleDoc paths) seen log
          (each_path resolve replace createRuleDoc ruleDocsDistDir ruleDocsI18nDistDir
                     paths indexes log).
Proof.
  revert seen indexes log. induction paths as [|path rest IH]; intros seen indexes log Hc.
  - unfold outcome. cbn [each_path flat_map forallb map]. rewrite !app_nil_r.
    split; [reflexivity | split; [exact Hc | reflexivity]].
  - cbn [each_path flat_map].
    assert (Hd := each_doc_outcome (createRuleDoc path) seen indexes log Hc).
    destruct (each_doc resolve replace ruleDocsDistDir ruleDocsI18nDistDir
                       (createRuleDoc path) indexes log) as [[indexes1 | e] log1].
    + destruct Hd as (Hall1 & Hcons1 & ->).
      specialize (IH _ _ (log ++ map (fun doc =>
                              Output (dist_of resolve replace ruleDocsDistDir
                                              ruleDocsI18nDistDir doc)
                                     (contents doc)) (createRuleDoc path)) Hcons1).
      unfold outcome in *.
      destruct (each_path resolve replace createRuleDoc ruleDocsDistDir
                          ruleDocsI18nDistDir rest indexes1 _) as [[indexes2 | e] log2].
      * destruct IH as (Hall2 & Hcons2 & ->).
        rewrite forallb_app, Hall1, Hall2, map_app, <- !app_assoc.
        rewrite <- app_assoc in Hcons2.
        split; [reflexivity | split; [exact Hcons2 | reflexivity]].
      * destruct IH as (good & bad & rest' & Hsplit & Hall & Hbad & ->).
        exists (createRuleDoc path ++ good), bad, rest'.
        rewrite Hsplit, forallb_app, Hall1, Hall, map_app, <- !app_assoc.
        split; [reflexivity | split; [reflexivity | split; [exact Hbad | reflexivity]]].
    + destruct Hd as (good & bad & rest' & Hsplit & Hall & Hbad & ->).
      exists good, bad, (rest' ++ flat_map createRuleDoc rest).
      rewrite Hsplit, <- app_assoc.
      split; [reflexivity | split; [exact Hall | split; [exact Hbad | reflexivity]]].
Qed.

(** X19.  When [createEachRule] returns, there is exactly one index for
    each language among the pages: no language has two, none is missing and
    none is invented. *)
Theorem createEachRule_one_index_per_language
        (paths : list string) (indexes : list RuleIndex) (log : list Action) :
  createEachRule resolve replace createRuleDoc paths ruleDocsDistDir ruleDocsI18nDistDir
  = (Normal indexes, log) ->
  NoDup (map index_lang indexes)
  /\ forall l, In l (map index_lang indexes) <->
               In l (map lang (flat_map createRuleDoc paths)).
Proof.
  intros H. assert (Ho := each_path_outcome paths [] [] [] consistent_nil).
  unfold createEachRule in H. rewrite H in Ho.
  destruct Ho as (_ & (Hnd & _ & Hlangs) & _). now split.
Qed.

(** X20.  When [createEachRule] returns, each index lists under each
    category the pages of its own language and that category, once each and
    in the order the pages were read. *)
Theorem createEachRule_index_lists_its_pages
        (paths : list string) (indexes : list RuleIndex) (log : list Action)
        (idx : RuleIndex) (key : string) :
  createEachRule resolve replace createRuleDoc paths ruleDocsDistDir ruleDocsI18nDistDir
  = (Normal indexes, log) ->
  In idx indexes ->
  entries_of key (index_contents idx) =
  map entry_of
      (filter (fun doc => same_lang (lang doc) (index_lang idx) && (category doc =? key))
              (flat_map createRuleDoc paths)).
Proof.
  intros H Hin. assert (Ho := each_path_outcome paths [] [] [] consistent_nil).
  unfold createEachRule in H. rewrite H in Ho.
  destruct Ho as (_ & (_ & Hentries & _) & _). now apply Hentries.
Qed.

(** X21.  When [createEachRule] returns, it has written one file for each
    page, in the order read, with the page's contents, and nothing else. *)
Theorem createEachRule_writes_each_page
        (paths : list string) (indexes : list RuleIndex) (log : list Action) :
  createEachRule resolve replace createRuleDoc paths ruleDocsDistDir ruleDocsI18nDistDir
  = (Normal indexes, log) ->
  log = map (fun doc =>
               Output (dist_of resolve replace ruleDocsDistDir ruleDocsI18nDistDir doc)
                      (contents doc))
            (flat_map createRuleDoc paths).
Proof.
  intros H. assert (Ho := each_path_outcome paths [] [] [] consistent_nil).
  unfold createEachRule in H. rewrite H in Ho.
  now destruct Ho as (_ & _ & ->).
Qed.


End Build.

(** X18.  A file name gives a language exactly when it is [README.]
    followed by one or more lower-case letters; [README] itself, and names
    such as [README.zh-CN] with anything else after the point, give none
    and are handled as the English page. *)
Theorem README_lang_iff (fileName l : string) :
  README_lang fileName = Some l <->
  fileName = String.append "README." l
  /\ l <> "" /\ all_lower_letters l = true.
Proof.
  unfold README_lang. split.
  - destruct (strip_prefix "README" fileName) as [[|c r]|] eqn:E; try discriminate.
    apply AttrCheckFacts.strip_prefix_inv in E.
    destruct (Ascii.eqb c ".") eqn:Ec; [|discriminate].
    apply Ascii.eqb_eq in Ec. subst c.
    destruct r as [|c' r']; [discriminate|]. cbn [andb].
    destruct (all_lower_letters (String c' r')) eqn:Ea; [|discriminate].
    intros [= <-]. split; [exact E | split; [discriminate | exact Ea]].
  - intros (-> & Hne & Ha).
    change (String.append "README." l) with (String.append "README" (String "." l)).
    rewrite AttrCheckFacts.strip_prefix_app. cbn [Ascii.eqb Bool.eqb andb].
    destruct l as [|c' r']; [congruence|]. now rewrite Ha.
Qed.

(** X23.  When [createRuleDocs] succeeds it has, in order: emptied the rules
    directory, written one file for each page, then one [index.md] for each
    language, English in the rules directory and the others in the directory
    of their language. *)
Theorem createRuleDocs_drops_then_writes_pages_then_indexes
        (resolve : list string -> string)
        (replace : string -> string -> string -> string)
        (createRuleDoc : string -> list Doc) (getRulePaths : list string)
        (projectRoot : string) (log : list Action) :
  createRuleDocs resolve replace createRuleDoc getRulePaths projectRoot
  = (Normal tt, log) ->
  let websiteDir := resolve [projectRoot; "website"] in
  let dist := resolve [websiteDir; "docs"; "rules"] in
  let i18n :=
    resolve [websiteDir; "i18n"; "<lang>"; "docusaurus-plugin-content-docs";
             "current"; "rules"] in
  exists indexes,
    NoDup (map index_lang indexes)
    /\ (forall l, In l (map index_lang indexes) <->
                  In l (map lang (flat_map createRuleDoc getRulePaths)))
    /\ log =
       [DropFiles dist]
       ++ map (fun doc => Output (dist_of resolve replace dist i18n doc) (contents doc))
              (flat_map createRuleDoc getRulePaths)
       ++ map (fun index =>
                 Output (resolve [if falsy (index_lang index) then dist
                                  else replace i18n "<lang>" (text_of (index_lang index));
                                  "index.md"])
                        (join newline (indexDoc_lines (index_contents index))))
              indexes.
Proof.
  intros H websiteDir dist i18n. unfold createRuleDocs in H.
  fold websiteDir dist i18n in H.
  destruct (createEachRule resolve replace createRuleDoc getRulePaths dist i18n)
    as [[indexes | e] pages] eqn:Hrun; [|discriminate H].
  injection H as <-. exists indexes.
  assert (Ho := each_path_outcome resolve replace createRuleDoc dist i18n getRulePaths
                                  [] [] [] consistent_nil).
  unfold createEachRule in Hrun. rewrite Hrun in Ho.
  destruct Ho as (_ & (Hnd & _ & Hlangs) & ->).
  split; [exact Hnd | split; [exact Hlangs|]].
  reflexivity.
Qed.

(** X24.  The index page has one row for each rule of each category, in
    the table of that category, besides its 27 fixed lines (front matter,
    headings, table heads and the four removed rules). *)
Theorem indexDoc_has_one_row_for_each_rule (index : RuleIndexContents) :
  List.length (indexDoc_lines index) =
  (27 + List.length (validation index) + List.length (a11y index)
   + List.length (naming_convention index) + List.length (maintainability index)
   + List.length (style index))%nat
  /\ forall rule,
      In rule (validation index ++ a11y index ++ naming_convention index
               ++ maintainability index ++ style index) ->
      In (ruleListItem (entry_id rule) (entry_description rule) None)
         (indexDoc_lines index).
Proof.
  split.
  - unfold indexDoc_lines, table, removedTable.
    rewrite !length_app, !length_map. cbn [List.length]. lia.
  - intros rule Hin. unfold indexDoc_lines, table.
    set (row := fun r : Entry => ruleListItem (entry_id r) (entry_description r) None).
    change (ruleListItem (entry_id rule) (entry_description rule) None) with (row rule).
    assert (Hrow : forall l, In rule l -> In (row rule) (map row l))
      by (intros l; apply in_map).
    rewrite !in_app_iff in Hin. rewrite !in_app_iff.
    destruct Hin as [H | [H | [H | [H | H]]]]; apply Hrow in H; tauto.
Qed.

(** Witnesses. *)

Lemma createEachRule_one_index_per_language_witness :
  NoDup [None; Some "ja"]
  /\ forall l, In l [None; Some "ja"] <->
               In l (map lang (flat_map Fixtures.createRuleDoc
                                        ["rules/attr-duplication"; "rules/class-naming"])).
Proof.
  refine (@createEachRule_one_index_per_language
            Fixtures.resolve Fixtures.replace Fixtures.createRuleDoc
            "/site/docs/rules" "/site/i18n/<lang>/rules"
            ["rules/attr-duplication"; "rules/class-naming"]
            (match fst (createEachRule Fixtures.resolve Fixtures.replace
                                       Fixtures.createRuleDoc
                                       ["rules/attr-duplication"; "rules/class-naming"]
                                       "/site/docs/rules" "/site/i18n/<lang>/rules") with
             | Normal indexes => indexes
             | Throw _ => []
             end) _ _).
  reflexivity.
Defined.

Lemma createEachRule_index_lists_its_pages_witness :
  entries_of "naming-convention"
    {| validation := [entry_of Fixtures.page_a]; a11y := [];
       naming_convention := [entry_of Fixtures.page_b];
       maintainability := []; style := [] |} =
  [entry_of Fixtures.page_b].
Proof.
  refine (@createEachRule_index_lists_its_pages
            Fixtures.resolve Fixtures.replace Fixtures.createRuleDoc
            "/site/docs/rules" "/site/i18n/<lang>/rules"
            ["rules/attr-duplication"; "rules/class-naming"] _ _
            {| index_lang := None;
               index_contents :=
                 {| validation := [entry_of Fixtures.page_a]; a11y := [];
                    naming_convention := [entry_of Fixtures.page_b];
                    maintainability := []; style := [] |} |}
            "naming-convention" _ _).
  - reflexivity.
  - left. reflexivity.
Defined.

Lemma createEachRule_writes_each_page_witness :
  [Output "/site/docs/rules/attr-duplication.md" "# attr-duplication";
   Output "/site/i18n/ja/rules/attr-duplication.md" "# attr-duplication (ja)";
   Output "/site/docs/rules/class-naming.md" "# class-naming"] =
  map (fun doc =>
         Output (dist_of Fixtures.resolve Fixtures.replace
                         "/site/docs/rules" "/site/i18n/<lang>/rules" doc)
                (contents doc))
      (flat_map Fixtures.createRuleDoc ["rules/attr-duplication"; "rules/class-naming"]).
Proof.
  refine (@createEachRule_writes_each_page
            Fixtures.resolve Fixtures.replace Fixtures.createRuleDoc
            "/site/docs/rules" "/site/i18n/<lang>/rules"
            ["rules/attr-duplication"; "rules/class-naming"] _ _ _).
  reflexivity.
Defined.


Lemma createRuleDocs_drops_then_writes_pages_then_indexes_witness :
  exists log,
    createRuleDocs Fixtures.resolve Fixtures.replace Fixtures.createRuleDoc
                   ["rules/attr-duplication"; "rules/class-naming"] "/repo"
    = (Normal tt, log)
    /\ hd_error log = Some (DropFiles "/repo/website/docs/rules")
    /\ List.length log = 6%nat.
Proof.
  eexists. split; [reflexivity|].
  destruct (@createRuleDocs_drops_then_writes_pages_then_indexes
              Fixtures.resolve Fixtures.replace Fixtures.createRuleDoc
              ["rules/attr-duplication"; "rules/class-naming"] "/repo" _ eq_refl)
    as (indexes & _ & _ & _).
  split; reflexivity.
Defined.

End RuleDocsFacts.
